(** * The repository reconciliation engine of [server.js]

    A shallow embedding of the two route handlers that drive a local
    directory and a remote repository into a consistent state
    ([/api/upload-vite-project] and [/api/download-and-prepare]) and of the
    helper [convertToSshUrl].

    The handlers only sequence calls to external collaborators (the [fs]
    module, [simple-git], [execa]).  They are embedded as programs of a small
    exception monad whose only effect is [Await c k]: issue the command [c],
    suspend, and continue with the settled promise.  A program is run against
    an arbitrary world; the run yields the handler's result together with the
    trace of the commands issued and how each one settled. *)

From Stdlib Require Import String Ascii List Bool NArith Lia.
From stdpp Require Import base option list strings gmap.
Import ListNotations.
Local Open Scope string_scope.
Local Open Scope list_scope.

(** ** JavaScript string primitives used by the source *)

Module JS.

(** [s.startsWith(p)] *)
Fixpoint startsWith (s p : string) {struct p} : bool :=
  match p with
  | EmptyString => true
  | String c p' =>
      match s with
      | EmptyString => false
      | String d s' => if Ascii.eqb c d then startsWith s' p' else false
      end
  end.

(** [s.slice(n)] for [0 <= n] *)
Fixpoint slice (n : nat) (s : string) : string :=
  match n, s with
  | O, _ => s
  | S n', String _ s' => slice n' s'
  | S _, EmptyString => EmptyString
  end.

(** [s.includes(p)] *)
Fixpoint includes (s p : string) : bool :=
  if startsWith s p then true
  else match s with
       | EmptyString => false
       | String _ s' => includes s' p
       end.

(** [s.replace(pat, rep)] for a string pattern: the first occurrence of
    [pat] is replaced.  The replacement strings of the source contain no
    [$], so no replacement pattern is expanded. *)
Fixpoint replace (pat rep s : string) : string :=
  if startsWith s pat then rep +:+ slice (String.length pat) s
  else match s with
       | EmptyString => EmptyString
       | String c s' => String c (replace pat rep s')
       end.

(** [s.replace(/\.git$/, rep)]: the pattern has no [m] flag, so [$] is the
    end of the input; the match, if any, is the first position at which
    the rest of the input is exactly [.git]. *)
Fixpoint replace_dotgit_at_end (rep s : string) : string :=
  if String.eqb s ".git" then rep
  else match s with
       | EmptyString => EmptyString
       | String c s' => String c (replace_dotgit_at_end rep s')
       end.

(** A request field or an environment variable: [undefined] or a string. *)
Definition value := option string.

(** [!v] *)
Definition falsy (v : value) : bool :=
  match v with
  | None => true
  | Some s => String.eqb s ""
  end.

(** [v || d] *)
Definition or_default (v : value) (d : string) : string :=
  match v with
  | None => d
  | Some s => if String.eqb s "" then d else s
  end.

(** [`${v}`] *)
Definition str (v : value) : string :=
  match v with
  | None => "undefined"
  | Some s => s
  end.

End JS.

(** ** [convertToSshUrl] (server.js, lines 39-46) *)

Definition convertToSshUrl (httpsUrl : string) : string :=
  if JS.startsWith httpsUrl "https://github.com/" then
    JS.replace_dotgit_at_end ".git"
      (JS.replace "https://github.com/" "git@github.com:" httpsUrl)
  else httpsUrl.

(** ** The command surface of the external collaborators *)

(** A rejected promise carries an [Error]; the handlers only read its
    [message]. *)
Record Error := mkError { message : string }.

(** A settled promise. *)
Inductive Res (A : Type) : Type :=
| Fulfilled (a : A)
| Rejected (e : Error).
Arguments Fulfilled {A} a.
Arguments Rejected {A} e.

(** [fs.Stats], of which the handlers call [isDirectory()] only. *)
Record Stats := mkStats { isDirectory : bool }.

(** An entry of [git.getRemotes(true)]: [{ name, refs: { fetch, push } }]. *)
Record RemoteRefs := mkRefs { fetch : string; push : string }.
Record RemoteWithRefs := mkRemote { name : string; refs : RemoteRefs }.

(** [CommitResult], [BranchSummary] and the result of [execa], restricted to
    the fields the handlers read. *)
Record CommitResult := mkCommit { commit : string }.
Record BranchSummary := mkBranch { current : string }.
Record ExecaResult := mkExeca { stdout : string; stderr : string }.

(** [fs.promises.*] *)
Inductive FsCmd : Type :=
| Stat (p : string)
| Mkdir (p : string) (recursive : bool)
| Rm (p : string) (recursive force : bool)
| CopyFile (src dest : string)
| Chmod (p : string) (mode : N).

(** The methods of a [simpleGit] instance.  [checkout(name)] is
    [GitCheckout [name]] and [checkout(['-b', name])] is
    [GitCheckout ["-b"; name]]; the options object [{'--set-upstream': null}]
    of [push] is the flag list [["--set-upstream"]]. *)
Inductive GitCmd : Type :=
| GitCheckIsRepo
| GitInit
| GitAddRemote (remoteName remoteRepo : string)
| GitGetRemotes (verbose : bool)
| GitRemoveRemote (remoteName : string)
| GitCheckout (what : list string)
| GitAdd (files : string)
| GitCommit (msg : string)
| GitBranch (options : list string)
| GitPush (remote branch : string) (options : list string)
| GitPull (remote branch : string)
| GitClone (repoPath localPath : string) (options : list string).

(** A command: a file-system call, a method call on the [simpleGit] instance
    bound to [baseDir] ([None] for [simpleGit()]), or [execa(file, args,
    { cwd })]. *)
Inductive Cmd : Type :=
| Fs (f : FsCmd)
| Git (baseDir : option string) (g : GitCmd)
| Execa (file : string) (args : list string) (cwd : string).

(** The type of the value a command's promise is fulfilled with. *)
Definition resp (c : Cmd) : Type :=
  match c with
  | Fs (Stat _) => Stats
  | Fs _ => unit
  | Git _ GitCheckIsRepo => bool
  | Git _ (GitGetRemotes _) => list RemoteWithRefs
  | Git _ (GitCommit _) => CommitResult
  | Git _ (GitBranch _) => BranchSummary
  | Git _ _ => unit
  | Execa _ _ _ => ExecaResult
  end.

#[global] Instance FsCmd_eq_dec : EqDecision FsCmd.
Proof. solve_decision. Defined.
#[global] Instance GitCmd_eq_dec : EqDecision GitCmd.
Proof. solve_decision. Defined.
#[global] Instance Cmd_eq_dec : EqDecision Cmd.
Proof. solve_decision. Defined.

(** ** Asynchronous programs *)

(** The body of an [async] function: it returns, throws, or awaits a command
    and continues with the settled promise. *)
Inductive Prog (A : Type) : Type :=
| Return (a : A)
| Throw (e : Error)
| Await (c : Cmd) (k : Res (resp c) -> Prog A).
Arguments Return {A} a.
Arguments Throw {A} e.
Arguments Await {A} c k.

Fixpoint bind {A B : Type} (p : Prog A) (f : A -> Prog B) : Prog B :=
  match p with
  | Return a => f a
  | Throw e => Throw e
  | Await c k => Await c (fun r => bind (k r) f)
  end.

(** [try { p } catch (e) { h e }] *)
Fixpoint try_catch {A : Type} (p : Prog A) (h : Error -> Prog A) : Prog A :=
  match p with
  | Return a => Return a
  | Throw e => h e
  | Await c k => Await c (fun r => try_catch (k r) h)
  end.

#[global] Instance Prog_ret : MRet Prog := fun A a => Return a.
#[global] Instance Prog_bind : MBind Prog := fun A B f p => bind p f.

(** [await c]: a rejection is thrown. *)
Definition await (c : Cmd) : Prog (resp c) :=
  Await c (fun r => match r with
                    | Fulfilled v => Return v
                    | Rejected e => Throw e
                    end).

(** [await c.then(f).catch(() => d)] *)
Definition await_then_catch {A : Type} (c : Cmd) (f : resp c -> A) (d : A) : Prog A :=
  Await c (fun r => match r with
                    | Fulfilled v => Return (f v)
                    | Rejected _ => Return d
                    end).

(** ** Running a program against a world *)

(** One observed step: the command issued and how its promise settled. *)
Inductive Event : Type :=
| Ev (c : Cmd) (r : Res (resp c)).

Definition Trace := list Event.

Definition ev_cmd (ev : Event) : Cmd :=
  match ev with Ev c _ => c end.

Definition ev_error (ev : Event) : option Error :=
  match ev with
  | Ev _ (Fulfilled _) => None
  | Ev _ (Rejected e) => Some e
  end.

Section Run.
Context {World : Type}.
(** The collaborators: how a command settles in a world, and the world it
    leaves behind. *)
Variable exec : forall c : Cmd, World -> Res (resp c) * World.

Fixpoint run {A : Type} (p : Prog A) (w : World) : Res A * World * Trace :=
  match p with
  | Return a => (Fulfilled a, w, [])
  | Throw e => (Rejected e, w, [])
  | Await c k =>
      let '(r, w1) := exec c w in
      let '(out, w2, tr) := run (k r) w1 in
      (out, w2, Ev c r :: tr)
  end.

Definition result_of {A : Type} (p : Prog A) (w : World) : Res A := (run p w).1.1.
Definition world_of {A : Type} (p : Prog A) (w : World) : World := (run p w).1.2.
Definition trace_of {A : Type} (p : Prog A) (w : World) : Trace := (run p w).2.
End Run.

(** ** The route handlers *)

(** The ambient Node.js process: the [path] module, the working directory and
    the two environment variables the server reads. *)
Class Node := {
  path_join : string -> string -> string;
  path_dirname : string -> string;
  path_basename : string -> string;
  process_cwd : string;
  env_GITHUB_PAT : JS.value;
  env_GITHUB_USERNAME : JS.value
}.

(** [res.status(status).json({ message, repoUrl?, path? })] *)
Record Response := mkResponse {
  status : nat;
  body_message : string;
  body_repoUrl : option string;
  body_path : option string
}.

(** [req.body] of [/api/upload-vite-project] *)
Record UploadBody := mkUpload {
  up_sourceLocalPath : JS.value;
  up_repoName : JS.value;
  up_branchName : JS.value;
  up_commitMessage : JS.value
}.

(** [req.body] of [/api/download-and-prepare] *)
Record DownloadBody := mkDownload {
  dl_githubRepoUrl : JS.value;
  dl_branchName : JS.value;
  dl_localDownloadPath : JS.value
}.

(** The double quote character, as a string. *)
Definition dq : string := String (Ascii.ascii_of_nat 34) EmptyString.

(** [r => r.name === 'origin'] *)
Definition is_origin (r : RemoteWithRefs) : bool := String.eqb (name r) "origin".

(** [await fs.promises.stat(p).catch(() => null)] *)
Definition stat_or_null (p : string) : Prog (option Stats) :=
  await_then_catch (Fs (Stat p)) Some None.

(** [await fs.promises.stat(p).then(stat => stat.isDirectory()).catch(() => false)] *)
Definition stat_isDirectory (p : string) : Prog bool :=
  await_then_catch (Fs (Stat p)) isDirectory false.

(** [checkoutError.message.includes('pathspec') ||
     checkoutError.message.includes('not found')] (line 243) *)
Definition branch_not_found (checkoutError : Error) : bool :=
  JS.includes (message checkoutError) "pathspec"
  || JS.includes (message checkoutError) "not found".

Section Server.
Context `{Node}.

Definition YOUR_GITHUB_USERNAME : JS.value := env_GITHUB_USERNAME.

Definition RUN_VITE_PROJECT_SCRIPT_TEMPLATE : string :=
  path_join process_cwd "../my-github-app-repo/scripts/run-vite-project.sh".

(** Lines 199-205: copy the helper script into the project if it is missing. *)
Definition ensureRunScript (sourceLocalPath : string) : Prog unit :=
  st ← stat_or_null (path_join sourceLocalPath "run-vite-project.sh");
  match st with
  | None =>
      let runScriptDestPath := path_join sourceLocalPath "run-vite-project.sh" in
      await (Fs (CopyFile RUN_VITE_PROJECT_SCRIPT_TEMPLATE runScriptDestPath));;
      await (Fs (Chmod runScriptDestPath 493%N)) (* 0o755 *)
  | Some _ => Return tt
  end.

(** Lines 214-236: make [origin] point at [remoteUrl]. *)
Definition reconcileRemote (git : option string) (remoteUrl : string) : Prog unit :=
  isRepo ← await_then_catch (Git git GitCheckIsRepo) id false;
  if negb isRepo then
    await (Git git GitInit);;
    await (Git git (GitAddRemote "origin" remoteUrl))
  else
    remotes ← await (Git git (GitGetRemotes true));
    if negb (existsb is_origin remotes) then
      await (Git git (GitAddRemote "origin" remoteUrl))
    else
      match find is_origin remotes with
      | Some currentOrigin =>
          if negb (String.eqb (fetch (refs currentOrigin)) remoteUrl) then
            await (Git git (GitRemoveRemote "origin"));;
            await (Git git (GitAddRemote "origin" remoteUrl))
          else Return tt
      | None => Return tt
      end.

(** Lines 239-250: check out the branch, creating it when it is not found. *)
Definition reconcileBranch (git : option string) (actualBranchName : string) : Prog unit :=
  try_catch
    (await (Git git (GitCheckout [actualBranchName])))
    (fun checkoutError =>
       if branch_not_found checkoutError then
         await (Git git (GitCheckout ["-b"; actualBranchName]))
       else Throw checkoutError).

(** Lines 259-273: push, asking for the upstream when on the target branch. *)
Definition pushBranch (git : option string) (actualBranchName : string) : Prog unit :=
  branchSummary ← await (Git git (GitBranch ["--show-current"]));
  if String.eqb (current branchSummary) actualBranchName then
    try_catch
      (await (Git git (GitPush "origin" actualBranchName ["--set-upstream"])))
      (fun pushError => await (Git git (GitPush "origin" actualBranchName [])))
  else
    await (Git git (GitPush "origin" actualBranchName [])).

(** Lines 190-278: the [try] block of the upload route. *)
Definition upload_try (sourceLocalPath repoName actualBranchName commitMessage : string)
  : Prog Response :=
  sourcePathStat ← stat_or_null sourceLocalPath;
  if match sourcePathStat with
     | None => true
     | Some st => negb (isDirectory st)
     end
  then
    Return (mkResponse 404
      ("Source local path " +:+ dq +:+ sourceLocalPath +:+ dq
       +:+ " not found or is not a directory.") None None)
  else
    packageJson ← stat_or_null (path_join sourceLocalPath "package.json");
    match packageJson with
    | None =>
        Return (mkResponse 400
          (dq +:+ sourceLocalPath +:+ dq
           +:+ " does not appear to be a Node.js project (package.json not found).")
          None None)
    | Some _ =>
        ensureRunScript sourceLocalPath;;
        let git := Some sourceLocalPath in
        let remoteUrl :=
          "git@github.com:" +:+ JS.str YOUR_GITHUB_USERNAME +:+ "/" +:+ repoName +:+ ".git" in
        reconcileRemote git remoteUrl;;
        reconcileBranch git actualBranchName;;
        await (Git git (GitAdd "."));;
        commitResult ← await (Git git (GitCommit commitMessage));
        pushBranch git actualBranchName;;
        Return (mkResponse 200
          ("Successfully uploaded Vite project from " +:+ dq
           +:+ path_basename sourceLocalPath +:+ dq +:+ " to " +:+ dq +:+ repoName +:+ "/"
           +:+ actualBranchName +:+ dq +:+ ". Commit: " +:+ commit commitResult)
          (Some ("https://github.com/" +:+ JS.str YOUR_GITHUB_USERNAME +:+ "/" +:+ repoName
                 +:+ "/tree/" +:+ actualBranchName))
          None)
    end.

(** Lines 173-284: [app.post('/api/upload-vite-project', ...)]. *)
Definition upload_vite_project (req : UploadBody) : Prog Response :=
  let sourceLocalPath := up_sourceLocalPath req in
  let repoName := up_repoName req in
  let branchName := up_branchName req in
  let commitMessage := up_commitMessage req in
  let githubToken := env_GITHUB_PAT in
  let actualBranchName := JS.or_default branchName "main" in
  if JS.falsy sourceLocalPath || JS.falsy repoName || JS.falsy commitMessage then
    Return (mkResponse 400
      "Local project path, target repository name, and commit message are required for upload."
      None None)
  else if JS.falsy githubToken then
    Return (mkResponse 500
      "GitHub Personal Access Token (GITHUB_PAT) is not configured on the server."
      None None)
  else if JS.falsy YOUR_GITHUB_USERNAME then
    Return (mkResponse 500
      "GITHUB_USERNAME environment variable is not configured on the server. Needed for constructing repo URL."
      None None)
  else
    try_catch
      (upload_try (JS.str sourceLocalPath) (JS.str repoName) actualBranchName
         (JS.str commitMessage))
      (fun error =>
         Return (mkResponse 500
           ("Failed to upload Vite project: " +:+ message error) None None)).

(** Lines 312-328: the target exists; repoint [origin] if needed, then pull. *)
Definition updateExisting (localDownloadPath sshRepoUrl actualBranchName : string)
  : Prog unit :=
  let gitPull := Some localDownloadPath in
  try_catch
    (remotes ← await (Git gitPull (GitGetRemotes true));
     match find is_origin remotes with
     | Some currentOrigin =>
         if negb (String.eqb (fetch (refs currentOrigin)) sshRepoUrl) then
           await (Git gitPull (GitRemoveRemote "origin"));;
           await (Git gitPull (GitAddRemote "origin" sshRepoUrl))
         else Return tt
     | None => Return tt
     end;;
     await (Git gitPull (GitPull "origin" actualBranchName)))
    (fun pullError => await (Fs (Rm localDownloadPath true true))).

(** Lines 298-360: the [try] block of the download route. *)
Definition download_try (githubRepoUrl actualBranchName localDownloadPath : string)
  : Prog Response :=
  let parentDir := path_dirname localDownloadPath in
  await (Fs (Mkdir parentDir true));;
  let sshRepoUrl := convertToSshUrl githubRepoUrl in
  targetPathExists ← stat_isDirectory localDownloadPath;
  (if targetPathExists then
     updateExisting localDownloadPath sshRepoUrl actualBranchName
   else Return tt);;
  mustClone ←
    (if negb targetPathExists then Return true
     else
       stillDirectory ← stat_isDirectory localDownloadPath;
       Return (targetPathExists && negb stillDirectory));
  (if mustClone : bool then
     await (Git None (GitClone sshRepoUrl localDownloadPath ["--branch"; actualBranchName]))
   else Return tt);;
  await (Execa "npm" ["install"] localDownloadPath);;
  let runScriptPathInProject := path_join localDownloadPath "run-vite-project.sh" in
  st ← stat_or_null runScriptPathInProject;
  match st with
  | None => await (Fs (CopyFile RUN_VITE_PROJECT_SCRIPT_TEMPLATE runScriptPathInProject))
  | Some _ => Return tt
  end;;
  await (Fs (Chmod runScriptPathInProject 493%N));; (* 0o755 *)
  Return (mkResponse 200 "Project cloned and prepared successfully!" None
            (Some localDownloadPath)).

(** Lines 362-374: the [catch] block of the download route. *)
Definition download_catch (localDownloadPath : string) (error : Error) : Prog Response :=
  try_catch
    (st ← stat_or_null localDownloadPath;
     match st with
     | Some _ => await (Fs (Rm localDownloadPath true true))
     | None => Return tt
     end)
    (fun cleanupError => Return tt);;
  Return (mkResponse 500
    ("Failed to download and prepare project: " +:+ message error) None None).

(** Lines 288-375: [app.post('/api/download-and-prepare', ...)]. *)
Definition download_and_prepare (req : DownloadBody) : Prog Response :=
  let githubRepoUrl := dl_githubRepoUrl req in
  let branchName := dl_branchName req in
  let localDownloadPath := dl_localDownloadPath req in
  let actualBranchName := JS.or_default branchName "main" in
  if JS.falsy githubRepoUrl || JS.falsy localDownloadPath then
    Return (mkResponse 400
      "GitHub repository URL and local download path are required." None None)
  else
    try_catch
      (download_try (JS.str githubRepoUrl) actualBranchName (JS.str localDownloadPath))
      (download_catch (JS.str localDownloadPath)).

End Server.

(** ** Observations on traces *)

(** The first event satisfying [P], with the events after it. *)
Fixpoint after_first (P : Event -> bool) (tr : Trace) : option (Event * Trace) :=
  match tr with
  | [] => None
  | ev :: tr' => if P ev then Some (ev, tr') else after_first P tr'
  end.

(** The events before the first event satisfying [P]. *)
Fixpoint before_first (P : Event -> bool) (tr : Trace) : option Trace :=
  match tr with
  | [] => None
  | ev :: tr' =>
      if P ev then Some []
      else match before_first P tr' with
           | Some pre => Some (ev :: pre)
           | None => None
           end
  end.

Definition rejected (ev : Event) : bool :=
  match ev_error ev with
  | Some _ => true
  | None => false
  end.

Definition is_git (ev : Event) : bool :=
  match ev_cmd ev with
  | Git _ _ => true
  | _ => false
  end.

Definition is_push (ev : Event) : bool :=
  match ev_cmd ev with
  | Git _ (GitPush _ _ _) => true
  | _ => false
  end.

Definition is_pull (ev : Event) : bool :=
  match ev_cmd ev with
  | Git _ (GitPull _ _) => true
  | _ => false
  end.

Definition is_clone (ev : Event) : bool :=
  match ev_cmd ev with
  | Git _ (GitClone _ _ _) => true
  | _ => false
  end.

Definition is_stage (ev : Event) : bool :=
  match ev_cmd ev with
  | Git _ (GitAdd _) => true
  | _ => false
  end.

Definition is_init (ev : Event) : bool :=
  match ev_cmd ev with
  | Git _ GitInit => true
  | _ => false
  end.

(** Whether a push carries [--set-upstream]. *)
Definition asks_upstream (ev : Event) : bool :=
  match ev_cmd ev with
  | Git _ (GitPush _ _ options) => existsb (String.eqb "--set-upstream") options
  | _ => false
  end.

(** The push events of a trace, in order. *)
Definition pushes (tr : Trace) : Trace := List.filter is_push tr.

(** What [git branch --show-current] reported, if it was asked and answered. *)
Fixpoint reported_branch (tr : Trace) : option string :=
  match tr with
  | [] => None
  | Ev c r :: tr' =>
      match c return Res (resp c) -> option string with
      | Git _ (GitBranch _) => fun r =>
          match r with
          | Fulfilled summary => Some (current summary)
          | Rejected _ => reported_branch tr'
          end
      | _ => fun _ => reported_branch tr'
      end r
  end.

(** A rejected command of the update attempt of the download route: listing
    or repointing the remote of the existing directory, or the pull. *)
Definition update_failed (ev : Event) : bool :=
  match ev_cmd ev with
  | Git (Some _) (GitGetRemotes _)
  | Git (Some _) (GitRemoveRemote _)
  | Git (Some _) (GitAddRemote _ _)
  | Git (Some _) (GitPull _ _) => rejected ev
  | _ => false
  end.

(** A rejected clone or a rejected [npm install]. *)
Definition acquisition_failed (ev : Event) : bool :=
  match ev_cmd ev with
  | Git _ (GitClone _ _ _) => rejected ev
  | Execa _ _ _ => rejected ev
  | _ => false
  end.

(** Whether a fulfilled-or-not [stat] says "directory", as
    [.then(stat => stat.isDirectory()).catch(() => false)] does. *)
Definition says_directory (r : Res Stats) : bool :=
  match r with
  | Fulfilled st => isDirectory st
  | Rejected _ => false
  end.

(** [currentOrigin && currentOrigin.refs.fetch !== url] for the [origin] entry
    of a remote listing. *)
Definition origin_differs (remotes : list RemoteWithRefs) (url : string) : bool :=
  match find is_origin remotes with
  | Some currentOrigin => negb (String.eqb (fetch (refs currentOrigin)) url)
  | None => false
  end.

(** ** Reference worlds *)

(** The values the collaborators answer with when a promise is fulfilled. *)
Record Answers := mkAnswers {
  ans_isDirectory : bool;              (* [stat.isDirectory()] *)
  ans_isRepo : bool;                   (* [git.checkIsRepo()] *)
  ans_remotes : list RemoteWithRefs;   (* [git.getRemotes(true)] *)
  ans_commit : string;                 (* [commitResult.commit] *)
  ans_current : string                 (* [branchSummary.current] *)
}.

(** Every promise is fulfilled, with the values of [a]. *)
Definition fulfilled (a : Answers) (c : Cmd) : Res (resp c) :=
  match c return Res (resp c) with
  | Fs f =>
      match f return Res (resp (Fs f)) with
      | Stat _ => Fulfilled (mkStats (ans_isDirectory a))
      | Mkdir _ _ => Fulfilled tt
      | Rm _ _ _ => Fulfilled tt
      | CopyFile _ _ => Fulfilled tt
      | Chmod _ _ => Fulfilled tt
      end
  | Git d g =>
      match g return Res (resp (Git d g)) with
      | GitCheckIsRepo => Fulfilled (ans_isRepo a)
      | GitInit => Fulfilled tt
      | GitAddRemote _ _ => Fulfilled tt
      | GitGetRemotes _ => Fulfilled (ans_remotes a)
      | GitRemoveRemote _ => Fulfilled tt
      | GitCheckout _ => Fulfilled tt
      | GitAdd _ => Fulfilled tt
      | GitCommit _ => Fulfilled (mkCommit (ans_commit a))
      | GitBranch _ => Fulfilled (mkBranch (ans_current a))
      | GitPush _ _ _ => Fulfilled tt
      | GitPull _ _ => Fulfilled tt
      | GitClone _ _ _ => Fulfilled tt
      end
  | Execa _ _ _ => Fulfilled (mkExeca "" "")
  end.

(** An oracle that rejects the command [c0] with [e] and settles every other
    command as [base] does. *)
Definition rejecting (c0 : Cmd) (e : Error) (base : forall c, Res (resp c))
  : forall c, Res (resp c) :=
  fun c => if bool_decide (c = c0) then Rejected e else base c.

(** The scripted world: the [n]-th command is settled by the [n]-th oracle
    of the script, and by [rest] once the script is exhausted. *)
Module Scripted.

Definition World := list (forall c : Cmd, Res (resp c)).

Definition exec (rest : forall c, Res (resp c)) (c : Cmd) (w : World)
  : Res (resp c) * World :=
  match w with
  | [] => (rest c, [])
  | oracle :: w' => (oracle c, w')
  end.

End Scripted.

(** The remote table of one working directory, after [git remote]: a work
    tree has at most one remote of a given name; [git remote add] refuses a
    name that exists, [git remote remove] one that does not; both need a work
    tree, as does listing; [git init] creates an empty table and leaves an
    existing one alone.  Commands that do not touch the table are settled by
    the oracle [other]. *)
Module RemoteModel.

(** [None]: the directory has no version-control metadata. *)
Definition World := option (gmap string RemoteRefs).

Definition listing (m : gmap string RemoteRefs) : list RemoteWithRefs :=
  (fun kv : string * RemoteRefs => mkRemote kv.1 kv.2) <$> map_to_list m.

Definition not_a_repository : Error :=
  mkError "fatal: not a git repository (or any of the parent directories): .git".

Definition git_exec (other : forall c, Res (resp c)) (d : option string) (g : GitCmd)
  (w : World) : Res (resp (Git d g)) * World :=
  match g return Res (resp (Git d g)) * World with
  | GitCheckIsRepo =>
      match w with
      | Some _ => (Fulfilled true, w)
      | None => (Fulfilled false, w)
      end
  | GitInit =>
      match w with
      | Some m => (Fulfilled tt, Some m)
      | None => (Fulfilled tt, Some ∅)
      end
  | GitAddRemote n url =>
      match w with
      | Some m =>
          match m !! n with
          | Some _ => (Rejected (mkError ("error: remote " +:+ n +:+ " already exists.")), w)
          | None => (Fulfilled tt, Some (<[n := mkRefs url url]> m))
          end
      | None => (Rejected not_a_repository, w)
      end
  | GitGetRemotes _ =>
      match w with
      | Some m => (Fulfilled (listing m), w)
      | None => (Rejected not_a_repository, w)
      end
  | GitRemoveRemote n =>
      match w with
      | Some m =>
          match m !! n with
          | Some _ => (Fulfilled tt, Some (delete n m))
          | None => (Rejected (mkError ("error: No such remote: '" +:+ n +:+ "'")), w)
          end
      | None => (Rejected not_a_repository, w)
      end
  | GitCheckout a => (other (Git d (GitCheckout a)), w)
  | GitAdd f => (other (Git d (GitAdd f)), w)
  | GitCommit m => (other (Git d (GitCommit m)), w)
  | GitBranch o => (other (Git d (GitBranch o)), w)
  | GitPush r b o => (other (Git d (GitPush r b o)), w)
  | GitPull r b => (other (Git d (GitPull r b)), w)
  | GitClone r l o => (other (Git d (GitClone r l o)), w)
  end.

Definition exec (other : forall c, Res (resp c)) (c : Cmd) (w : World)
  : Res (resp c) * World :=
  match c return Res (resp c) * World with
  | Git d g => git_exec other d g w
  | Fs f => (other (Fs f), w)
  | Execa f a d => (other (Execa f a d), w)
  end.

(** Whether [origin] exists and fetches from [url]. *)
Definition origin_fetches (w : World) (url : string) : bool :=
  match w with
  | Some m =>
      match m !! "origin" with
      | Some r => String.eqb (fetch r) url
      | None => false
      end
  | None => false
  end.

(** The entries named [origin] of the listing of a world. *)
Definition origins (w : World) : list RemoteWithRefs :=
  match w with
  | Some m => List.filter is_origin (listing m)
  | None => []
  end.

End RemoteModel.

(** A Node.js process for the examples: POSIX-like [path] functions on
    already-normalised paths. *)
Module Example_process.

(** [path.dirname]: everything before the last separator. *)
Fixpoint dirname (p : string) : string :=
  match p with
  | EmptyString => EmptyString
  | String c p' => if JS.includes p' "/" then String c (dirname p') else EmptyString
  end.

(** [path.basename]: everything after the last separator. *)
Fixpoint basename (p : string) : string :=
  match p with
  | EmptyString => EmptyString
  | String c p' =>
      if JS.includes p' "/" then basename p'
      else if Ascii.eqb c "/" then p' else p
  end.

#[export] Instance node : Node := {|
  path_join := fun a b => a +:+ "/" +:+ b;
  path_dirname := dirname;
  path_basename := basename;
  process_cwd := "/srv/API";
  env_GITHUB_PAT := Some "ghp_token";
  env_GITHUB_USERNAME := Some "quartz"
|}.

End Example_process.

(** ** Scenarios *)

Module Scenario.
Import Example_process.

(** Everything succeeds; the work tree has no remote and [HEAD] is detached,
    so that [git branch --show-current] reports no branch. *)
Definition detached : Answers := mkAnswers true true [] "1a2b3c4" "".

(** Everything succeeds and the current branch is [main]. *)
Definition on_main : Answers := mkAnswers true true [] "1a2b3c4" "main".

(** Upload of [/home/u/app] to the tag [v1.0] of [demo]. *)
Definition upload_tag : UploadBody :=
  mkUpload (Some "/home/u/app") (Some "demo") (Some "v1.0") (Some "fix bug").

(** Upload of [/home/u/app] to the default branch of [demo]. *)
Definition upload_main : UploadBody :=
  mkUpload (Some "/home/u/app") (Some "demo") None (Some "fix bug").

(** Download of [acct/repo] into [/home/u/cloned/repo]. *)
Definition download_repo : DownloadBody :=
  mkDownload (Some "https://github.com/acct/repo.git") None (Some "/home/u/cloned/repo").

Definition target : string := "/home/u/cloned/repo".
Definition ssh : string := "git@github.com:acct/repo.git".

Definition no_origin : Error :=
  mkError "fatal: 'origin' does not appear to be a git repository".
Definition enoent : Error := mkError "ENOENT: no such file or directory".

(** The target is a work tree without [origin]: the pull is rejected, the
    removal succeeds and the target is then gone. *)
Definition pull_without_origin : Scripted.World :=
  [fulfilled on_main; fulfilled on_main; fulfilled on_main;
   rejecting (Git (Some target) (GitPull "origin" "main")) no_origin (fulfilled on_main);
   fulfilled on_main;
   rejecting (Fs (Stat target)) enoent (fulfilled on_main)].

(** The target is a plain directory: listing its remotes is rejected. *)
Definition plain_directory : Scripted.World :=
  [fulfilled on_main; fulfilled on_main;
   rejecting (Git (Some target) (GitGetRemotes true)) RemoteModel.not_a_repository
     (fulfilled on_main);
   fulfilled on_main;
   rejecting (Fs (Stat target)) enoent (fulfilled on_main)].

(** The target is absent, the clone is rejected, and so is the removal of
    what the clone left behind. *)
Definition clone_and_cleanup_fail : Scripted.World :=
  [fulfilled on_main;
   rejecting (Fs (Stat target)) enoent (fulfilled on_main);
   rejecting (Git None (GitClone ssh target ["--branch"; "main"]))
     (mkError "fatal: repository not found") (fulfilled on_main);
   fulfilled on_main;
   rejecting (Fs (Rm target true true)) (mkError "EACCES: permission denied")
     (fulfilled on_main)].

(** The source project has no helper script, and the commit call is
    rejected, here with the message of a clean working tree. *)
Definition nothing_to_commit : Scripted.World :=
  [fulfilled on_main; fulfilled on_main;
   rejecting (Fs (Stat "/home/u/app/run-vite-project.sh")) enoent (fulfilled on_main);
   fulfilled on_main; fulfilled on_main; fulfilled on_main; fulfilled on_main;
   fulfilled on_main; fulfilled on_main; fulfilled on_main;
   rejecting (Git (Some "/home/u/app") (GitCommit "fix bug"))
     (mkError "nothing to commit, working tree clean") (fulfilled on_main)].

End Scenario.

(** ** Postconditions of runs *)

Section Wp.
Context {World : Type}.
Variable exec : forall c : Cmd, World -> Res (resp c) * World.

(** [wp p w Q]: running [p] from [w] ends in a result, a world and a trace
    that satisfy [Q]. *)
Definition wp {A : Type} (p : Prog A) (w : World)
  (Q : Res A -> World -> Trace -> Prop) : Prop :=
  Q (result_of exec p w) (world_of exec p w) (trace_of exec p w).

End Wp.

(** ** Further observations on traces *)

(** The identifier of the commit a trace made, if [git commit] was fulfilled. *)
Fixpoint committed (tr : Trace) : option string :=
  match tr with
  | [] => None
  | Ev c r :: tr' =>
      match c return Res (resp c) -> option string with
      | Git _ (GitCommit _) => fun r =>
          match r with
          | Fulfilled result => Some (commit result)
          | Rejected _ => committed tr'
          end
      | _ => fun _ => committed tr'
      end r
  end.

(** The step of the upload route a command belongs to: probing the project,
    installing the helper script, reconciling the remote, switching branch,
    staging, committing, asking for the current branch, pushing. *)
Definition stage_of (c : Cmd) : nat :=
  match c with
  | Fs (Stat _) => 0
  | Fs (CopyFile _ _) | Fs (Chmod _ _) => 1
  | Git _ GitCheckIsRepo | Git _ GitInit | Git _ (GitGetRemotes _)
  | Git _ (GitAddRemote _ _) | Git _ (GitRemoveRemote _) => 2
  | Git _ (GitCheckout _) => 3
  | Git _ (GitAdd _) => 4
  | Git _ (GitCommit _) => 5
  | Git _ (GitBranch _) => 6
  | Git _ (GitPush _ _ _) => 7
  | _ => 8
  end.

Fixpoint nondecreasing (l : list nat) : bool :=
  match l with
  | a :: (b :: _) as l' => Nat.leb a b && nondecreasing l'
  | _ => true
  end.

(** What a [stat] event says about its path being a directory; [false] for
    any other event. *)
Definition probe_says_directory (ev : Event) : bool :=
  match ev with
  | Ev c r =>
      match c return Res (resp c) -> bool with
      | Fs (Stat _) => says_directory
      | _ => fun _ => false
      end r
  end.

Definition is_stat (ev : Event) : bool :=
  match ev_cmd ev with
  | Fs (Stat _) => true
  | _ => false
  end.

Definition is_rm (ev : Event) : bool :=
  match ev_cmd ev with
  | Fs (Rm _ _ _) => true
  | _ => false
  end.

Definition is_execa (ev : Event) : bool :=
  match ev_cmd ev with
  | Execa _ _ _ => true
  | _ => false
  end.

(** A fulfilled pull. *)
Definition pull_fulfilled (ev : Event) : bool := is_pull ev && negb (rejected ev).


(** The commands the upload route may issue for the project at [src]. *)
Definition upload_may (template script src : string) (c : Cmd) : Prop :=
  match c with
  | Fs (Stat _) => True
  | Fs (CopyFile from to) => from = template /\ to = script
  | Fs (Chmod p mode) => p = script /\ mode = 493%N
  | Fs (Mkdir _ _) | Fs (Rm _ _ _) => False
  | Git d g =>
      d = Some src
      /\ match g with
         | GitAddRemote n _ | GitRemoveRemote n => n = "origin"
         | GitPush remote _ _ => remote = "origin"
         | GitPull _ _ | GitClone _ _ _ => False
         | _ => True
         end
  | Execa _ _ _ => False
  end.

(** The commands the download route may issue for the target [target], the
    canonical URL [url] and the branch [b]. *)
Definition download_may (template parent script target url b : string) (c : Cmd) : Prop :=
  match c with
  | Fs (Stat p) => p = target \/ p = script
  | Fs (Mkdir p recursive) => p = parent /\ recursive = true
  | Fs (Rm p recursive force) => p = target /\ recursive = true /\ force = true
  | Fs (CopyFile from to) => from = template /\ to = script
  | Fs (Chmod p mode) => p = script /\ mode = 493%N
  | Git (Some d) g =>
      d = target
      /\ match g with
         | GitGetRemotes _ => True
         | GitRemoveRemote n => n = "origin"
         | GitAddRemote n u => n = "origin" /\ u = url
         | GitPull remote branch => remote = "origin" /\ branch = b
         | _ => False
         end
  | Git None g => g = GitClone url target ["--branch"; b]
  | Execa file args cwd => file = "npm" /\ args = ["install"] /\ cwd = target
  end.

(** ** The scaffold route (lines 126-169) *)

Definition VITE_SCAFFOLDS_BASE_DIR : string :=
  "/data/data/com.termux/files/home/vite_scaffolds".

(** [req.body] of [/api/scaffold-vite]; the template is passed to [execa] as
    it is, so the embedding covers the requests in which it is a string. *)
Record ScaffoldBody := mkScaffold {
  sc_projectName : JS.value;
  sc_template : string
}.

(** [res.status(status).json({ message, path?, stdout? })] *)
Record ScaffoldResponse := mkScaffoldResponse {
  sr_status : nat;
  sr_message : string;
  sr_path : option string;
  sr_stdout : option string
}.

Section Scaffold.
Context `{Node}.

(** Lines 136-163: the [try] block of the scaffold route. *)
Definition scaffold_try (projectName template projectPath : string)
  : Prog ScaffoldResponse :=
  await (Fs (Mkdir VITE_SCAFFOLDS_BASE_DIR true));;
  projectExists ← stat_isDirectory projectPath;
  if projectExists : bool then
    Return (mkScaffoldResponse 409
      ("Project directory '" +:+ projectName
       +:+ "' already exists. Please choose a different name or delete it first.")
      None None)
  else
    created ← await (Execa "npm"
                 ["create"; "vite@latest"; projectName; "--"; "--template"; template]
                 VITE_SCAFFOLDS_BASE_DIR);
    let runScriptDestPath := path_join projectPath "run-vite-project.sh" in
    await (Fs (CopyFile RUN_VITE_PROJECT_SCRIPT_TEMPLATE runScriptDestPath));;
    await (Fs (Chmod runScriptDestPath 493%N));; (* 0o755 *)
    Return (mkScaffoldResponse 200
      ("Vite project '" +:+ projectName +:+ "' scaffolded successfully!")
      (Some projectPath) (Some (stdout created))).

(** Lines 126-169: [app.post('/api/scaffold-vite', ...)]. *)
Definition scaffold_vite (req : ScaffoldBody) : Prog ScaffoldResponse :=
  let projectName := sc_projectName req in
  let template := sc_template req in
  if JS.falsy projectName then
    Return (mkScaffoldResponse 400 "Project name is required for scaffolding." None None)
  else
    let projectPath := path_join VITE_SCAFFOLDS_BASE_DIR (JS.str projectName) in
    try_catch
      (scaffold_try (JS.str projectName) template projectPath)
      (fun error =>
         Return (mkScaffoldResponse 500
           ("Failed to scaffold Vite project: " +:+ message error) None None)).

End Scaffold.

(** ** The GitHub REST routes (lines 50-122) *)

(** Each of these routes makes at most one call to [axios]; [axios] is a
    function from the request to [response.data] or to the error the promise
    is rejected with, and a route yields its reply together with the requests
    it sent. *)
Module GitHub.

Record Headers := mkHeaders { Authorization : string; Accept : string }.

(** [{ name, description, auto_init }] *)
Record RepoDetails := mkRepoDetails {
  rd_name : string;
  rd_description : JS.value;
  rd_auto_init : bool
}.

Inductive Request : Type :=
| GET (url : string) (headers : Headers)
| POST (url : string) (data : RepoDetails) (headers : Headers).

(** The error of a rejected call: [error.message] and the chain
    [error.response?.data?.message]. *)
Record ErrorData := mkErrorData { ed_message : JS.value }.
Record ErrorResponse := mkErrorResponse { er_data : option ErrorData }.
Record AxiosError := mkAxiosError {
  ax_message : string;
  ax_response : option ErrorResponse
}.

(** [error.response?.data?.message] *)
Definition response_data_message (error : AxiosError) : JS.value :=
  match ax_response error with
  | Some response =>
      match er_data response with
      | Some data => ed_message data
      | None => None
      end
  | None => None
  end.

Section Routes.
Context `{Node}.
(** The JSON GitHub answers with. *)
Variable Data : Type.
Variable axios : Request -> Data + AxiosError.

(** [res.status(status).json(body)]: the body is GitHub's answer or
    [{ message }]. *)
Record Reply := mkReply { rp_status : nat; rp_body : Data + string }.

Definition api_headers (githubToken : string) : Headers :=
  mkHeaders ("token " +:+ githubToken) "application/vnd.github.v3+json".

(** Lines 50-63. *)
Definition getReposFromGitHub (username githubToken : string)
  : Res Data * list Request :=
  let request :=
    GET ("https://api.github.com/users/" +:+ username +:+ "/repos")
        (api_headers githubToken) in
  match axios request with
  | inl data => (Fulfilled data, [request])
  | inr error =>
      (Rejected (mkError (JS.or_default (response_data_message error)
                            "Failed to fetch repositories from GitHub.")),
       [request])
  end.

(** Lines 65-78. *)
Definition createRepoOnGitHub (repoDetails : RepoDetails) (githubToken : string)
  : Res Data * list Request :=
  let request :=
    POST "https://api.github.com/user/repos" repoDetails (api_headers githubToken) in
  match axios request with
  | inl data => (Fulfilled data, [request])
  | inr error =>
      (Rejected (mkError (JS.or_default (response_data_message error)
                            "Failed to create repository on GitHub.")),
       [request])
  end.

(** Lines 83-101: [app.get('/api/repos', ...)], on [req.query.username]. *)
Definition repos (username : JS.value) : Reply * list Request :=
  let githubToken := env_GITHUB_PAT in
  if JS.falsy username then
    (mkReply 400 (inr "GitHub username is required."), [])
  else if JS.falsy githubToken then
    (mkReply 500
       (inr "GitHub Personal Access Token (GITHUB_PAT) is not configured on the server."),
     [])
  else
    match getReposFromGitHub (JS.str username) (JS.str githubToken) with
    | (Fulfilled repos, sent) => (mkReply 200 (inl repos), sent)
    | (Rejected error, sent) => (mkReply 500 (inr (message error)), sent)
    end.

(** Lines 104-122: [app.post('/api/create-repo', ...)], on
    [req.body.name] and [req.body.description]. *)
Definition create_repo (name description : JS.value) : Reply * list Request :=
  let githubToken := env_GITHUB_PAT in
  if JS.falsy name then
    (mkReply 400 (inr "Repository name is required."), [])
  else if JS.falsy githubToken then
    (mkReply 500
       (inr "GitHub Personal Access Token (GITHUB_PAT) is not configured on the server."),
     [])
  else
    match createRepoOnGitHub (mkRepoDetails (JS.str name) description true)
            (JS.str githubToken) with
    | (Fulfilled newRepo, sent) => (mkReply 201 (inl newRepo), sent)
    | (Rejected error, sent) => (mkReply 500 (inr (message error)), sent)
    end.

End Routes.

End GitHub.

(** * Properties *)

(** ** Strings *)

Lemma startsWith_app (p r : string) : JS.startsWith (p +:+ r) p = true.
Proof.
  induction p as [|c p IH]; simpl; [reflexivity|].
  rewrite Ascii.eqb_refl. exact IH.
Qed.

Lemma replace_at_start (pat rep s : string) :
  JS.startsWith s pat = true ->
  JS.replace pat rep s = rep +:+ JS.slice (String.length pat) s.
Proof. intros Hs. destruct s; simpl; rewrite Hs; reflexivity. Qed.

(** Replacing a final [.git] by [.git] changes nothing. *)
Lemma replace_dotgit_same (s : string) : JS.replace_dotgit_at_end ".git" s = s.
Proof.
  induction s as [|c s IH]; [reflexivity|].
  unfold JS.replace_dotgit_at_end; fold JS.replace_dotgit_at_end.
  destruct (String.eqb (String c s) ".git") eqn:Heq.
  - apply String.eqb_eq in Heq. symmetry. exact Heq.
  - rewrite IH. reflexivity.
Qed.

Lemma convertToSshUrl_unfold (r : string) :
  convertToSshUrl r =
    if JS.startsWith r "https://github.com/"
    then "git@github.com:" +:+ JS.slice 19 r
    else r.
Proof.
  unfold convertToSshUrl.
  destruct (JS.startsWith r "https://github.com/") eqn:Hs; [|reflexivity].
  rewrite replace_dotgit_same, (replace_at_start _ _ _ Hs). reflexivity.
Qed.

(** C8.  [convertToSshUrl] is idempotent: converting its own result changes
    nothing, and a reference that does not start with the web prefix
    [https://github.com/] is its own conversion. *)
Theorem convertToSshUrl_idempotent :
  forall r : string,
    convertToSshUrl (convertToSshUrl r) = convertToSshUrl r
    /\ (if JS.startsWith r "https://github.com/" then True
        else convertToSshUrl r = r).
Proof.
  intros r. destruct (JS.startsWith r "https://github.com/") eqn:Hs.
  - split; [|exact I].
    rewrite (convertToSshUrl_unfold r), Hs. reflexivity.
  - assert (Hr : convertToSshUrl r = r)
      by (rewrite convertToSshUrl_unfold, Hs; reflexivity).
    rewrite !Hr. split; reflexivity.
Qed.


(** ** Rules for postconditions *)

Section WpRules.
Context {World : Type}.
Variable exec : forall c : Cmd, World -> Res (resp c) * World.

Lemma wp_run {A : Type} (p : Prog A) (w : World) (Q : Res A -> World -> Trace -> Prop) :
  wp exec p w Q <-> (let '(out, w', tr) := run exec p w in Q out w' tr).
Proof.
  unfold wp, result_of, world_of, trace_of.
  destruct (run exec p w) as [[out w'] tr]. reflexivity.
Qed.

Lemma wp_Return {A : Type} (a : A) (w : World) (Q : Res A -> World -> Trace -> Prop) :
  Q (Fulfilled a) w [] -> wp exec (Return a) w Q.
Proof. intros HQ. exact HQ. Qed.

Lemma wp_Throw {A : Type} (e : Error) (w : World) (Q : Res A -> World -> Trace -> Prop) :
  Q (Rejected e) w [] -> wp exec (Throw e) w Q.
Proof. intros HQ. exact HQ. Qed.

(** Awaiting a command: whatever way it settles, the continuation must
    establish the postcondition behind the observed event. *)
Lemma wp_Await {A : Type} (c : Cmd) (k : Res (resp c) -> Prog A) (w : World)
  (Q : Res A -> World -> Trace -> Prop) :
  (forall r w1, exec c w = (r, w1) ->
     wp exec (k r) w1 (fun out w2 tr => Q out w2 (Ev c r :: tr))) ->
  wp exec (Await c k) w Q.
Proof.
  intros Hk. unfold wp, result_of, world_of, trace_of in *. simpl.
  destruct (exec c w) as [r w1] eqn:Hexec.
  specialize (Hk r w1 eq_refl).
  destruct (run exec (k r) w1) as [[out w2] tr]. exact Hk.
Qed.

Lemma wp_mono {A : Type} (p : Prog A) (w : World)
  (Q Q' : Res A -> World -> Trace -> Prop) :
  (forall out w' tr, Q out w' tr -> Q' out w' tr) ->
  wp exec p w Q -> wp exec p w Q'.
Proof. intros HQ Hp. apply HQ, Hp. Qed.

End WpRules.

(** One step of symbolic execution of a run: through a return, a throw or an
    awaited command (both ways it can settle), or by cases on the value that
    decides a conditional. *)
Ltac blocker p :=
  lazymatch p with
  | bind ?q _ => blocker q
  | mbind _ ?q => blocker q
  | try_catch ?q _ => blocker q
  | if ?b then _ else _ => b
  | match ?x with _ => _ end => x
  end.

Ltac prog_simpl :=
  cbn [mbind Prog_bind bind try_catch negb andb orb].

Ltac wp_step :=
  lazymatch goal with
  | |- wp _ (Return _) _ _ => apply wp_Return
  | |- wp _ (Throw _) _ _ => apply wp_Throw
  | |- wp _ (Await _ _) _ _ =>
      apply wp_Await; intros [?|?] ? _; cbn [resp] in *; prog_simpl
  | |- wp _ ?p _ _ =>
      let b := blocker p in destruct b eqn:?; prog_simpl
  end.

Ltac wp_run :=
  unfold stat_or_null, stat_isDirectory, await_then_catch, await;
  prog_simpl; repeat wp_step;
  repeat match goal with u : unit |- _ => destruct u end.

(** ** Branch reconciliation (lines 239-250) *)

(** C4.  [reconcileBranch] first attempts the switch.  If the switch is
    fulfilled nothing else happens.  If it is rejected with an error
    classified as branch-not-found, the branch is created and switched to by
    the single command [checkout -b], whose outcome is the outcome of the
    reconciliation.  If it is rejected with any other error, no further
    command is issued and that same error is thrown to the caller. *)
Theorem reconcileBranch_policy :
  forall (World : Type) (exec : forall c : Cmd, World -> Res (resp c) * World)
         (git : option string) (actualBranchName : string) (w : World),
    let switch := Git git (GitCheckout [actualBranchName]) in
    let create := Git git (GitCheckout ["-b"; actualBranchName]) in
    let '(out, _, tr) := run exec (reconcileBranch git actualBranchName) w in
    (tr = [Ev switch (Fulfilled tt)] /\ out = Fulfilled tt)
    \/ (exists e r, tr = [Ev switch (Rejected e); Ev create r]
                    /\ branch_not_found e = true /\ out = r)
    \/ (exists e, tr = [Ev switch (Rejected e)]
                  /\ branch_not_found e = false /\ out = Rejected e).
Proof.
  intros World exec git b w switch create.
  apply (wp_run exec). unfold reconcileBranch. wp_run.
  - left. split; reflexivity.
  - right. left. eexists _, (Fulfilled tt). repeat split. assumption.
  - right. left. eexists _, (Rejected _). repeat split. assumption.
  - right. right. eexists. repeat split. assumption.
Qed.

(** ** The upload route (lines 173-284) *)

(** Symbolic execution of the upload route along every path. *)
Ltac upload_run :=
  apply (wp_run _);
  unfold upload_vite_project, upload_try, ensureRunScript, reconcileRemote,
    reconcileBranch, pushBranch;
  wp_run; cbn.

(** C1, as amended.  In every run of the upload route, if
    [git branch --show-current] was not answered there is no push at all.
    If it reported the requested branch, the first push asks for the
    upstream; when it is fulfilled it is the only push, and when it is
    rejected exactly one plain push follows.  If it reported anything else,
    a single plain push is made and no push asks for the upstream.  In each
    case a rejection of the last push is answered with status 500 and that
    push's own message, and its fulfilment with status 200. *)
Theorem upload_push_fallback :
  forall `{Node} (World : Type) (exec : forall c : Cmd, World -> Res (resp c) * World)
         (req : UploadBody) (w : World),
    let git := Some (JS.str (up_sourceLocalPath req)) in
    let b := JS.or_default (up_branchName req) "main" in
    let upstream := Git git (GitPush "origin" b ["--set-upstream"]) in
    let plain := Git git (GitPush "origin" b []) in
    let surfaced (r : Res unit) (out : Res Response) :=
      match r with
      | Fulfilled _ => exists resp, out = Fulfilled resp /\ status resp = 200
      | Rejected e =>
          out = Fulfilled (mkResponse 500
                  ("Failed to upload Vite project: " +:+ message e) None None)
      end in
    let '(out, _, tr) := run exec (upload_vite_project req) w in
    match reported_branch tr with
    | None => pushes tr = []
    | Some cur =>
        if String.eqb cur b then
          (pushes tr = [Ev upstream (Fulfilled tt)] /\ surfaced (Fulfilled tt) out)
          \/ (exists e r, pushes tr = [Ev upstream (Rejected e); Ev plain r]
                          /\ surfaced r out)
        else
          exists r, pushes tr = [Ev plain r] /\ surfaced r out
    end.
Proof.
  intros N World exec req w. cbv zeta.
  upload_run.
  all: first
    [ reflexivity
    | match goal with H : String.eqb _ _ = _ |- _ => rewrite H end;
      first
        [ left; split; [reflexivity|]; eexists; split; reflexivity
        | right; eexists _, (Fulfilled tt); split; [reflexivity|];
          eexists; split; reflexivity
        | right; eexists _, (Rejected _); split; reflexivity
        | eexists (Fulfilled tt); split; [reflexivity|];
          eexists; split; reflexivity
        | eexists (Rejected _); split; reflexivity ] ].
Qed.

(** ** The download route (lines 288-375) *)

(** Symbolic execution of the download route along every path. *)
Ltac download_run :=
  apply (wp_run _);
  unfold download_and_prepare, download_try, download_catch, updateExisting;
  wp_run; cbn.

(** C5, as amended.  The download route never initialises the target
    directory.  In every run that reaches the pull, what precedes the pull is
    exactly: the creation of the parent directory, the probe that found the
    target to be a directory, the listing of its remotes, and, only when the
    listing has an [origin] whose fetch URL differs from the canonical URL,
    the removal of [origin] followed by its registration with the canonical
    URL.  A missing [origin] is not added. *)
Theorem download_repoints_existing_origin_only :
  forall `{Node} (World : Type) (exec : forall c : Cmd, World -> Res (resp c) * World)
         (req : DownloadBody) (w : World),
    let target := JS.str (dl_localDownloadPath req) in
    let gitPull := Some target in
    let url := convertToSshUrl (JS.str (dl_githubRepoUrl req)) in
    let '(out, _, tr) := run exec (download_and_prepare req) w in
    forallb (fun ev => negb (is_init ev)) tr = true
    /\ match before_first is_pull tr with
       | Some pre =>
           exists st remotes,
             isDirectory st = true
             /\ pre =
                  [Ev (Fs (Mkdir (path_dirname target) true)) (Fulfilled tt);
                   Ev (Fs (Stat target)) (Fulfilled st);
                   Ev (Git gitPull (GitGetRemotes true)) (Fulfilled remotes)]
                  ++ (if origin_differs remotes url
                      then [Ev (Git gitPull (GitRemoveRemote "origin")) (Fulfilled tt);
                            Ev (Git gitPull (GitAddRemote "origin" url)) (Fulfilled tt)]
                      else [])
       | None => True
       end.
Proof.
  intros N World exec req w. cbv zeta.
  download_run.
  all: split; [reflexivity|].
  all: first
    [ exact I
    | eexists _, _; split; [eassumption|]; unfold origin_differs;
      match goal with H : find is_origin _ = _ |- _ => rewrite H end;
      repeat match goal with H : negb _ = _ |- _ => rewrite H end;
      reflexivity ].
Qed.

(** C7.  In every run of the download route, when the clone or
    [npm install] is rejected, the target path is probed and, if the probe
    finds anything, removed recursively; nothing else follows.  However the
    removal settles, the response has status 500 and carries the message of
    the rejected clone or installation. *)
Theorem download_cleanup_keeps_original_error :
  forall `{Node} (World : Type) (exec : forall c : Cmd, World -> Res (resp c) * World)
         (req : DownloadBody) (w : World),
    let target := JS.str (dl_localDownloadPath req) in
    let '(out, _, tr) := run exec (download_and_prepare req) w in
    match after_first acquisition_failed tr with
    | Some (failed, post) =>
        exists e,
          ev_error failed = Some e
          /\ out = Fulfilled (mkResponse 500
                     ("Failed to download and prepare project: " +:+ message e)
                     None None)
          /\ ((exists e', post = [Ev (Fs (Stat target)) (Rejected e')])
              \/ (exists st r,
                    post = [Ev (Fs (Stat target)) (Fulfilled st);
                            Ev (Fs (Rm target true true)) r]))
    | None => True
    end.
Proof.
  intros N World exec req w. cbv zeta.
  download_run.
  all: first
    [ exact I
    | eexists; split; [reflexivity|]; split; [reflexivity|];
      first [ left; eexists; reflexivity
            | right; eexists _, (Fulfilled tt); reflexivity
            | right; eexists _, (Rejected _); reflexivity ] ].
Qed.

(** ** Remote reconciliation in the remote-table model (lines 214-236) *)

Lemma filter_Permutation_bool {A : Type} (f : A -> bool) (l l' : list A) :
  l ≡ₚ l' -> List.filter f l ≡ₚ List.filter f l'.
Proof.
  induction 1 as [|x l l' _ IH|x y l|l l' l'' _ IH1 _ IH2]; simpl.
  - reflexivity.
  - destruct (f x); [constructor|]; exact IH.
  - destruct (f x), (f y); try reflexivity. apply perm_swap.
  - etransitivity; eassumption.
Qed.

Lemma existsb_filter {A : Type} (f : A -> bool) (l : list A) :
  existsb f l = match List.filter f l with [] => false | _ :: _ => true end.
Proof.
  induction l as [|x l IH]; simpl; [reflexivity|].
  destruct (f x); [reflexivity | exact IH].
Qed.

Lemma find_filter {A : Type} (f : A -> bool) (l : list A) :
  find f l = head (List.filter f l).
Proof.
  induction l as [|x l IH]; simpl; [reflexivity|].
  destruct (f x); [reflexivity | exact IH].
Qed.

(** The listing of a remote table has the entry of [origin], if any, and no
    other entry of that name. *)
Lemma filter_origin_listing (m : gmap string RemoteRefs) :
  List.filter is_origin (RemoteModel.listing m) =
    match m !! "origin" with
    | Some r => [mkRemote "origin" r]
    | None => []
    end.
Proof.
  assert (Hperm : List.filter is_origin (RemoteModel.listing m) ≡ₚ
                    match m !! "origin" with
                    | Some r => [mkRemote "origin" r]
                    | None => []
                    end).
  { induction m as [|i x m Hi IH] using map_ind.
    - unfold RemoteModel.listing. rewrite map_to_list_empty, lookup_empty. reflexivity.
    - unfold RemoteModel.listing in *.
      rewrite (filter_Permutation_bool _ _ _
                 (fmap_Permutation _ _ _ (map_to_list_insert m i x Hi))).
      simpl. unfold is_origin at 1. simpl.
      destruct (String.eqb i "origin") eqn:Hio.
      + apply String.eqb_eq in Hio. subst i.
        rewrite lookup_insert_eq. rewrite Hi in IH. rewrite IH. reflexivity.
      + apply String.eqb_neq in Hio.
        rewrite lookup_insert_ne by exact Hio. exact IH. }
  destruct (m !! "origin").
  - apply Permutation_singleton_r. exact Hperm.
  - apply Permutation_nil_r. exact Hperm.
Qed.

Ltac model_simpl :=
  cbn [run mbind Prog_bind bind try_catch RemoteModel.exec RemoteModel.git_exec
       negb id head fst snd refs name fetch push].

(** C3.  In the remote-table model, from every prior state of the working
    directory (no version-control metadata, metadata without [origin],
    [origin] with another URL, or [origin] already fetching from the desired
    URL) [reconcileRemote] is fulfilled and leaves a listing with exactly one
    entry named [origin], whose URL is the desired one; unless [origin]
    already fetched from the desired URL, the new table is the old one with
    [origin] set to the desired URL.  A second reconciliation with the same
    URL only probes and lists: it issues no mutating command and leaves the
    table as it is. *)
Theorem reconcileRemote_converges :
  forall (other : forall c : Cmd, Res (resp c)) (git : option string) (url : string)
         (w : RemoteModel.World),
    let exec := RemoteModel.exec other in
    let '(out1, w1, tr1) := run exec (reconcileRemote git url) w in
    let '(out2, w2, tr2) := run exec (reconcileRemote git url) w1 in
    out1 = Fulfilled tt
    /\ (exists r, RemoteModel.origins w1 = [mkRemote "origin" r] /\ fetch r = url)
    /\ w1 = (if RemoteModel.origin_fetches w url then w
             else Some (<["origin" := mkRefs url url]> (default ∅ w)))
    /\ out2 = Fulfilled tt
    /\ w2 = w1
    /\ map ev_cmd tr2 = [Git git GitCheckIsRepo; Git git (GitGetRemotes true)].
Proof.
  intros other git url w. cbv zeta.
  set (exec := RemoteModel.exec other).
  assert (Hsettled : forall m r,
             m !! "origin" = Some r -> fetch r = url ->
             run exec (reconcileRemote git url) (Some m) =
               (Fulfilled tt, Some m,
                [Ev (Git git GitCheckIsRepo) (Fulfilled true);
                 Ev (Git git (GitGetRemotes true)) (Fulfilled (RemoteModel.listing m))])).
  { intros m r Hm Hr. unfold reconcileRemote, await_then_catch, await, exec. model_simpl.
    rewrite existsb_filter, find_filter, filter_origin_listing, Hm. model_simpl.
    rewrite Hr, String.eqb_refl. reflexivity. }
  assert (Hone : forall m r,
             m !! "origin" = Some r -> fetch r = url ->
             exists r', RemoteModel.origins (Some m) = [mkRemote "origin" r'] /\ fetch r' = url).
  { intros m r Hm Hr. exists r. unfold RemoteModel.origins.
    rewrite filter_origin_listing, Hm. split; [reflexivity | exact Hr]. }
  assert (Hafter : forall m : gmap string RemoteRefs,
             (<["origin" := mkRefs url url]> m) !! "origin" = Some (mkRefs url url))
    by (intros m; apply lookup_insert_eq).
  destruct w as [m|].
  - (* version-control metadata present *)
    destruct (m !! "origin") as [r|] eqn:Hm.
    + destruct (String.eqb (fetch r) url) eqn:Hr.
      * (* origin already fetches from the desired URL *)
        assert (Hr' : fetch r = url) by (apply String.eqb_eq; exact Hr).
        rewrite (Hsettled m r Hm Hr'), (Hsettled m r Hm Hr').
        unfold RemoteModel.origin_fetches. rewrite Hm, Hr.
        split; [reflexivity|]. split; [exact (Hone m r Hm Hr')|].
        split; [reflexivity|]. split; [reflexivity|]. split; reflexivity.
      * (* origin fetches from another URL: removed, then registered *)
        assert (Hrun : run exec (reconcileRemote git url) (Some m) =
                  (Fulfilled tt, Some (<["origin" := mkRefs url url]> m),
                   [Ev (Git git GitCheckIsRepo) (Fulfilled true);
                    Ev (Git git (GitGetRemotes true)) (Fulfilled (RemoteModel.listing m));
                    Ev (Git git (GitRemoveRemote "origin")) (Fulfilled tt);
                    Ev (Git git (GitAddRemote "origin" url)) (Fulfilled tt)])).
        { unfold reconcileRemote, await_then_catch, await, exec. model_simpl.
          rewrite existsb_filter, find_filter, filter_origin_listing, Hm. model_simpl.
          rewrite Hr. model_simpl. rewrite Hm. model_simpl.
          rewrite lookup_delete_eq. model_simpl.
          rewrite insert_delete_eq. reflexivity. }
        rewrite Hrun, (Hsettled _ _ (Hafter m) eq_refl).
        unfold RemoteModel.origin_fetches. rewrite Hm, Hr.
        split; [reflexivity|]. split; [exact (Hone _ _ (Hafter m) eq_refl)|].
        split; [reflexivity|]. split; [reflexivity|]. split; reflexivity.
    + (* no origin: registered *)
      assert (Hrun : run exec (reconcileRemote git url) (Some m) =
                (Fulfilled tt, Some (<["origin" := mkRefs url url]> m),
                 [Ev (Git git GitCheckIsRepo) (Fulfilled true);
                  Ev (Git git (GitGetRemotes true)) (Fulfilled (RemoteModel.listing m));
                  Ev (Git git (GitAddRemote "origin" url)) (Fulfilled tt)])).
      { unfold reconcileRemote, await_then_catch, await, exec. model_simpl.
        rewrite existsb_filter, filter_origin_listing, Hm. model_simpl.
        rewrite Hm. reflexivity. }
      rewrite Hrun, (Hsettled _ _ (Hafter m) eq_refl).
      unfold RemoteModel.origin_fetches. rewrite Hm.
      split; [reflexivity|]. split; [exact (Hone _ _ (Hafter m) eq_refl)|].
      split; [reflexivity|]. split; [reflexivity|]. split; reflexivity.
  - (* no version-control metadata: initialised, then registered *)
    assert (Hrun : run exec (reconcileRemote git url) None =
              (Fulfilled tt, Some (<["origin" := mkRefs url url]> ∅),
               [Ev (Git git GitCheckIsRepo) (Fulfilled false);
                Ev (Git git GitInit) (Fulfilled tt);
                Ev (Git git (GitAddRemote "origin" url)) (Fulfilled tt)])).
    { unfold reconcileRemote, await_then_catch, await, exec. model_simpl.
      rewrite lookup_empty. reflexivity. }
    rewrite Hrun, (Hsettled _ _ (Hafter ∅) eq_refl).
    split; [reflexivity|]. split; [exact (Hone _ _ (Hafter ∅) eq_refl)|].
    split; [reflexivity|]. split; [reflexivity|]. split; reflexivity.
Qed.

(** ** The scenarios, run *)

(** C1, the claim as stated fails: uploading to the tag [v1.0] reaches the
    push stage with a detached [HEAD]; the first and only push is the plain
    one, and the request succeeds. *)
Lemma upload_first_push_without_upstream :
  let run_ :=
    run (Scripted.exec (fulfilled Scenario.detached))
      (@upload_vite_project Example_process.node Scenario.upload_tag) [] in
  reported_branch run_.2 = Some ""
  /\ map ev_cmd (pushes run_.2) = [Git (Some "/home/u/app") (GitPush "origin" "v1.0" [])]
  /\ asks_upstream <$> head (pushes run_.2) = Some false
  /\ exists resp, run_.1.1 = Fulfilled resp /\ status resp = 200.
Proof.
  cbv zeta. split; [vm_compute; reflexivity|].
  split; [vm_compute; reflexivity|].
  split; [vm_compute; reflexivity|].
  eexists. split; [vm_compute; reflexivity|]. reflexivity.
Qed.

(** C5, the claim as stated fails: on a target that is a work tree without
    [origin], the download route lists the remotes and pulls at once, where
    the reconciliation of the upload route registers [origin] on the same
    listing; on a target without version-control metadata it initialises
    nothing and goes on to remove and clone. *)
Lemma download_does_not_add_missing_origin :
  map ev_cmd
    (trace_of (Scripted.exec (fulfilled Scenario.on_main))
       (@download_and_prepare Example_process.node Scenario.download_repo)
       Scenario.pull_without_origin)
  = [Fs (Mkdir "/home/u/cloned" true);
     Fs (Stat Scenario.target);
     Git (Some Scenario.target) (GitGetRemotes true);
     Git (Some Scenario.target) (GitPull "origin" "main");
     Fs (Rm Scenario.target true true);
     Fs (Stat Scenario.target);
     Git None (GitClone Scenario.ssh Scenario.target ["--branch"; "main"]);
     Execa "npm" ["install"] Scenario.target;
     Fs (Stat "/home/u/cloned/repo/run-vite-project.sh");
     Fs (Chmod "/home/u/cloned/repo/run-vite-project.sh" 493%N)]
  /\ map ev_cmd
       (trace_of (Scripted.exec (fulfilled Scenario.on_main))
          (reconcileRemote (Some Scenario.target) Scenario.ssh) [])
     = [Git (Some Scenario.target) GitCheckIsRepo;
        Git (Some Scenario.target) (GitGetRemotes true);
        Git (Some Scenario.target) (GitAddRemote "origin" Scenario.ssh)]
  /\ map ev_cmd
       (trace_of (Scripted.exec (fulfilled Scenario.on_main))
          (@download_and_prepare Example_process.node Scenario.download_repo)
          Scenario.plain_directory)
     = [Fs (Mkdir "/home/u/cloned" true);
        Fs (Stat Scenario.target);
        Git (Some Scenario.target) (GitGetRemotes true);
        Fs (Rm Scenario.target true true);
        Fs (Stat Scenario.target);
        Git None (GitClone Scenario.ssh Scenario.target ["--branch"; "main"]);
        Execa "npm" ["install"] Scenario.target;
        Fs (Stat "/home/u/cloned/repo/run-vite-project.sh");
        Fs (Chmod "/home/u/cloned/repo/run-vite-project.sh" 493%N)].
Proof. split; [|split]; vm_compute; reflexivity. Qed.

(** The rejected pull of the first scenario is followed by the removal, the
    probe and the clone. *)
Example download_reclone_run :
  (fun '(ev, post) => (ev_cmd ev, ev_error ev, firstn 3 (map ev_cmd post))) <$>
    after_first update_failed
      (trace_of (Scripted.exec (fulfilled Scenario.on_main))
         (@download_and_prepare Example_process.node Scenario.download_repo)
         Scenario.pull_without_origin)
  = Some (Git (Some Scenario.target) (GitPull "origin" "main"),
          Some Scenario.no_origin,
          [Fs (Rm Scenario.target true true);
           Fs (Stat Scenario.target);
           Git None (GitClone Scenario.ssh Scenario.target ["--branch"; "main"])]).
Proof. vm_compute. reflexivity. Qed.

(** A rejected clone whose cleanup is rejected too: the response carries the
    clone's message. *)
Example download_cleanup_run :
  let run_ :=
    run (Scripted.exec (fulfilled Scenario.on_main))
      (@download_and_prepare Example_process.node Scenario.download_repo)
      Scenario.clone_and_cleanup_fail in
  run_.1.1 = Fulfilled (mkResponse 500
               "Failed to download and prepare project: fatal: repository not found"
               None None)
  /\ map (fun ev => (ev_cmd ev, rejected ev)) run_.2
     = [(Fs (Mkdir "/home/u/cloned" true), false);
        (Fs (Stat Scenario.target), true);
        (Git None (GitClone Scenario.ssh Scenario.target ["--branch"; "main"]), true);
        (Fs (Stat Scenario.target), false);
        (Fs (Rm Scenario.target true true), true)].
Proof. split; vm_compute; reflexivity. Qed.

(** A project without helper script whose commit is rejected: the script
    is copied and made executable before the first [git] command, the commit
    is attempted and its rejection is the response. *)
Example upload_nothing_to_commit_run :
  let run_ :=
    run (Scripted.exec (fulfilled Scenario.on_main))
      (@upload_vite_project Example_process.node Scenario.upload_main)
      Scenario.nothing_to_commit in
  run_.1.1 = Fulfilled (mkResponse 500
               "Failed to upload Vite project: nothing to commit, working tree clean"
               None None)
  /\ map ev_cmd run_.2
     = [Fs (Stat "/home/u/app");
        Fs (Stat "/home/u/app/package.json");
        Fs (Stat "/home/u/app/run-vite-project.sh");
        Fs (CopyFile "/srv/API/../my-github-app-repo/scripts/run-vite-project.sh"
              "/home/u/app/run-vite-project.sh");
        Fs (Chmod "/home/u/app/run-vite-project.sh" 493%N);
        Git (Some "/home/u/app") GitCheckIsRepo;
        Git (Some "/home/u/app") (GitGetRemotes true);
        Git (Some "/home/u/app") (GitAddRemote "origin" "git@github.com:quartz/demo.git");
        Git (Some "/home/u/app") (GitCheckout ["main"]);
        Git (Some "/home/u/app") (GitAdd ".");
        Git (Some "/home/u/app") (GitCommit "fix bug")].
Proof. split; vm_compute; reflexivity. Qed.

(** The classification of line 243 on three messages. *)
Example branch_not_found_messages :
  branch_not_found
    (mkError "error: pathspec 'feature' did not match any file(s) known to git") = true
  /\ branch_not_found (mkError "fatal: repository not found") = true
  /\ branch_not_found (mkError "error: Your local changes would be overwritten") = false.
Proof. repeat split. Qed.

(** Reconciliation on a table whose [origin] has the web URL and which has a
    second remote. *)
Example reconcileRemote_repoints :
  let table : gmap string RemoteRefs :=
    {[ "origin" := mkRefs "https://github.com/quartz/demo.git"
                          "https://github.com/quartz/demo.git";
       "backup" := mkRefs "git@example.org:demo.git" "git@example.org:demo.git" ]} in
  let run_ :=
    run (RemoteModel.exec (fulfilled Scenario.on_main))
      (reconcileRemote None "git@github.com:quartz/demo.git") (Some table) in
  RemoteModel.origins run_.1.2
    = [mkRemote "origin" (mkRefs "git@github.com:quartz/demo.git"
                                 "git@github.com:quartz/demo.git")]
  /\ map ev_cmd run_.2
     = [Git None GitCheckIsRepo; Git None (GitGetRemotes true);
        Git None (GitRemoveRemote "origin");
        Git None (GitAddRemote "origin" "git@github.com:quartz/demo.git")]
  /\ length (match run_.1.2 with Some m => RemoteModel.listing m | None => [] end) = 2%nat.
Proof. cbv zeta. split; [|split]; vm_compute; reflexivity. Qed.

(** ** Runs from a known start *)

(** A step of symbolic execution through a command whose outcome in the
    current world is given by a hypothesis. *)
Ltac wp_known :=
  lazymatch goal with
  | |- wp ?exec (Await ?c _) ?w _ =>
      lazymatch goal with
      | H : exec c w = _ |- _ =>
          let r := fresh "r" in
          let w' := fresh "w" in
          let Hx := fresh "Hexec" in
          apply wp_Await; intros r w' Hx; rewrite H in Hx;
          injection Hx as <- <-; cbn [resp] in *; prog_simpl
      end
  end.

Ltac wp_run_known :=
  unfold stat_or_null, stat_isDirectory, await_then_catch, await;
  prog_simpl; repeat first [wp_known | wp_step];
  repeat match goal with u : unit |- _ => destruct u end.


(** C6, as amended.  Take an upload request that passes validation.  Either
    a command before staging is rejected and the request fails with that
    command's message, or [git add .] is issued.  A fulfilled [git add .] is
    followed at once by [git commit] with the caller's message, whatever is
    staged.  A rejected commit ends the run: nothing else is issued and the
    answer is 500 with the commit's message.  A fulfilled commit is never
    looked at: the route goes on to the push stage, and when it answers 200
    the message carries the commit identifier as returned, also when it is
    empty. *)
Theorem upload_commits_whatever_is_staged :
  forall `{Node} (World : Type) (exec : forall c : Cmd, World -> Res (resp c) * World)
         (req : UploadBody) (w w1 w2 : World) (st pk : Stats),
    let src := JS.str (up_sourceLocalPath req) in
    let git := Some src in
    let b := JS.or_default (up_branchName req) "main" in
    let failed (e : Error) : Res Response :=
      Fulfilled (mkResponse 500 ("Failed to upload Vite project: " +:+ message e)
                   None None) in
    JS.falsy (up_sourceLocalPath req) || JS.falsy (up_repoName req)
      || JS.falsy (up_commitMessage req) = false ->
    JS.falsy env_GITHUB_PAT = false ->
    JS.falsy YOUR_GITHUB_USERNAME = false ->
    exec (Fs (Stat src)) w = (Fulfilled st, w1) ->
    isDirectory st = true ->
    exec (Fs (Stat (path_join src "package.json"))) w1 = (Fulfilled pk, w2) ->
    let '(out, _, tr) := run exec (upload_vite_project req) w in
    exists t,
      tr = Ev (Fs (Stat src)) (Fulfilled st)
           :: Ev (Fs (Stat (path_join src "package.json"))) (Fulfilled pk) :: t
      /\ match after_first is_stage t with
         | None =>
             exists ev e, last t = Some ev /\ ev_error ev = Some e /\ out = failed e
         | Some (staged, post) =>
             ev_cmd staged = Git git (GitAdd ".")
             /\ if rejected staged then
                  post = [] /\ exists e, ev_error staged = Some e /\ out = failed e
                else
                  exists r rest,
                    post = Ev (Git git (GitCommit (JS.str (up_commitMessage req)))) r
                           :: rest
                    /\ match r with
                       | Rejected e => rest = [] /\ out = failed e
                       | Fulfilled result =>
                           (exists r' rest',
                               rest = Ev (Git git (GitBranch ["--show-current"])) r'
                                      :: rest')
                           /\ forall resp,
                               out = Fulfilled resp -> status resp = 200 ->
                               body_message resp =
                                 "Successfully uploaded Vite project from " +:+ dq
                                 +:+ path_basename src +:+ dq +:+ " to " +:+ dq
                                 +:+ JS.str (up_repoName req) +:+ "/" +:+ b +:+ dq
                                 +:+ ". Commit: " +:+ commit result
                       end
         end.
Proof.
  intros N World exec req w w1 w2 st pk. cbv zeta.
  intros Hfields Hpat Huser Hsrc Hdir Hpkg.
  apply (wp_run _).
  unfold upload_vite_project, upload_try, ensureRunScript, reconcileRemote,
    reconcileBranch, pushBranch.
  rewrite Hfields, Hpat, Huser.
  unfold stat_or_null, await_then_catch, await. prog_simpl.
  wp_known. rewrite Hdir. prog_simpl.
  wp_known.
  wp_run; cbn.
  all: eexists; split; [reflexivity|]; cbn.
  all: first
    [ eexists _, _; split; [reflexivity|]; split; reflexivity
    | split; [reflexivity|];
      first
        [ split; [reflexivity|]; eexists; split; reflexivity
        | eexists (Rejected _), _; split; [reflexivity|]; split; reflexivity
        | eexists (Fulfilled _), _; split; [reflexivity|];
          split; [eexists _, _; reflexivity|];
          intros resp Hout Hstatus; injection Hout as <-;
          first [ reflexivity | discriminate Hstatus ] ] ].
Qed.


(** ** Witnesses and counterexamples of the revised claims *)


Lemma upload_commits_whatever_is_staged_witness :
  let exec := Scripted.exec (fulfilled Scenario.on_main) in
  let upload := @upload_vite_project Example_process.node Scenario.upload_main in
  result_of exec upload Scenario.nothing_to_commit
  = Fulfilled (mkResponse 500
                 "Failed to upload Vite project: nothing to commit, working tree clean"
                 None None)
  /\ exists t,
      map ev_cmd (trace_of exec upload Scenario.nothing_to_commit)
      = Fs (Stat "/home/u/app") :: Fs (Stat "/home/u/app/package.json") :: t.
Proof.
  cbv zeta. split; [vm_compute; reflexivity|].
  pose proof (upload_commits_whatever_is_staged (H := Example_process.node)
                Scripted.World (Scripted.exec (fulfilled Scenario.on_main))
                Scenario.upload_main Scenario.nothing_to_commit
                _ _ _ _
                eq_refl eq_refl eq_refl eq_refl eq_refl eq_refl) as Hthm.
  unfold trace_of.
  destruct (run _ _ _) as [[out w'] tr].
  destruct Hthm as (t & -> & _).
  exists (map ev_cmd t). reflexivity.
Defined.



(** C6, the claim as stated fails: nothing is staged and the commit call is
    fulfilled with an empty commit identifier, as [simple-git] answers when
    [git commit] has nothing to commit; the route does not notice, pushes and
    answers 200 with an empty identifier. *)
Lemma upload_empty_commit_succeeds_silently :
  let nothing_staged := mkAnswers true true [] "" "main" in
  let run_ :=
    run (Scripted.exec (fulfilled nothing_staged))
      (@upload_vite_project Example_process.node Scenario.upload_main) [] in
  committed run_.2 = Some ""
  /\ map ev_cmd (pushes run_.2)
     = [Git (Some "/home/u/app") (GitPush "origin" "main" ["--set-upstream"])]
  /\ run_.1.1 = Fulfilled (mkResponse 200
                  ("Successfully uploaded Vite project from " +:+ dq +:+ "app" +:+ dq
                   +:+ " to " +:+ dq +:+ "demo/main" +:+ dq +:+ ". Commit: ")
                  (Some "https://github.com/quartz/demo/tree/main") None).
Proof. cbv zeta. split; [|split]; vm_compute; reflexivity. Qed.


(** * Further properties *)

(** ** Substring tests and the classification of checkout errors *)

Lemma append_cons (c : ascii) (a b : string) : String c a +:+ b = String c (a +:+ b).
Proof. reflexivity. Qed.

Lemma append_empty (b : string) : "" +:+ b = b.
Proof. reflexivity. Qed.

Lemma append_inv_head (p x y : string) : p +:+ x = p +:+ y -> x = y.
Proof.
  induction p as [|c p IH]; [trivial|].
  rewrite !append_cons. intros Heq. injection Heq as Heq. exact (IH Heq).
Qed.

Lemma startsWith_iff (s p : string) : JS.startsWith s p = true <-> exists b, s = p +:+ b.
Proof.
  split.
  - revert s. induction p as [|c p IH]; intros s Hs.
    + exists s. reflexivity.
    + simpl in Hs. destruct s as [|d s]; [discriminate|].
      destruct (Ascii.eqb c d) eqn:Hcd; [|discriminate].
      apply Ascii.eqb_eq in Hcd. subst d.
      destruct (IH s Hs) as [b Hb]. exists b. rewrite append_cons, <- Hb. reflexivity.
  - intros [b ->]. apply startsWith_app.
Qed.

Lemma includes_iff (s p : string) :
  JS.includes s p = true <-> exists a b, s = a +:+ p +:+ b.
Proof.
  induction s as [|c s IH].
  - simpl. destruct (JS.startsWith "" p) eqn:Hs.
    + split; [intros _|reflexivity].
      apply startsWith_iff in Hs. destruct Hs as [b Hb]. exists "", b. exact Hb.
    + split; [discriminate|]. intros (a & b & Hab).
      destruct a as [|c a]; [|rewrite append_cons in Hab; discriminate].
      rewrite append_empty in Hab.
      assert (JS.startsWith "" p = true) by (apply startsWith_iff; eauto). congruence.
  - cbn [JS.includes]. destruct (JS.startsWith (String c s) p) eqn:Hs.
    + split; [intros _|reflexivity].
      apply startsWith_iff in Hs. destruct Hs as [b Hb]. exists "", b. exact Hb.
    + rewrite IH. split.
      * intros (a & b & ->). exists (String c a), b. reflexivity.
      * intros (a & b & Hab). destruct a as [|c' a].
        -- rewrite append_empty in Hab.
           assert (JS.startsWith (String c s) p = true) by (apply startsWith_iff; eauto).
           congruence.
        -- rewrite append_cons in Hab. injection Hab as _ Hab. eauto.
Qed.

(** X1.  In any world, [reconcileBranch] issues [checkout -b] exactly when
    the switch was rejected with a message that has [pathspec] or
    [not found] somewhere inside it: any such rejection, whatever caused it,
    is answered by creating the branch, and no other rejection is. *)
Theorem reconcileBranch_creates_iff_message_mentions :
  forall (World : Type) (exec : forall c : Cmd, World -> Res (resp c) * World)
         (git : option string) (actualBranchName : string) (w : World),
    let create := Git git (GitCheckout ["-b"; actualBranchName]) in
    let tr := trace_of exec (reconcileBranch git actualBranchName) w in
    In create (map ev_cmd tr)
    <-> exists ev e,
          head tr = Some ev
          /\ ev_cmd ev = Git git (GitCheckout [actualBranchName])
          /\ ev_error ev = Some e
          /\ ((exists a c, message e = a +:+ "pathspec" +:+ c)
              \/ (exists a c, message e = a +:+ "not found" +:+ c)).
Proof.
  intros World exec git b w. cbv zeta.
  change (wp exec (reconcileBranch git b) w
            (fun _ _ tr =>
               In (Git git (GitCheckout ["-b"; b])) (map ev_cmd tr)
               <-> exists ev e,
                     head tr = Some ev
                     /\ ev_cmd ev = Git git (GitCheckout [b])
                     /\ ev_error ev = Some e
                     /\ ((exists a c, message e = a +:+ "pathspec" +:+ c)
                         \/ (exists a c, message e = a +:+ "not found" +:+ c)))).
  unfold reconcileBranch. wp_run; cbn.
  - split.
    + intros [Heq|[]]. discriminate Heq.
    + intros (ev & e & Hhead & _ & Herr & _).
      injection Hhead as <-. discriminate Herr.
  - split; [intros _|intros _; right; left; reflexivity].
    eexists _, _. split; [reflexivity|]. split; [reflexivity|]. split; [reflexivity|].
    unfold branch_not_found in *. apply orb_true_iff in Heqb0.
    rewrite !includes_iff in Heqb0. exact Heqb0.
  - split; [intros _|intros _; right; left; reflexivity].
    eexists _, _. split; [reflexivity|]. split; [reflexivity|]. split; [reflexivity|].
    unfold branch_not_found in *. apply orb_true_iff in Heqb0.
    rewrite !includes_iff in Heqb0. exact Heqb0.
  - split.
    + intros [Heq|[]]. discriminate Heq.
    + intros (ev & e' & Hhead & _ & Herr & Hmsg).
      injection Hhead as <-. injection Herr as <-.
      assert (Hyes : branch_not_found e = true).
      { unfold branch_not_found. apply orb_true_iff.
        rewrite !includes_iff. exact Hmsg. }
      congruence.
Qed.

(** ** More on [convertToSshUrl] *)

(** X2.  The result of [convertToSshUrl] never has the web prefix, and the
    web form and the transport form of one path have the same result. *)
Theorem convertToSshUrl_result_is_not_web :
  (forall r : string,
      JS.startsWith (convertToSshUrl r) "https://github.com/" = false)
  /\ (forall path : string,
         convertToSshUrl ("https://github.com/" +:+ path)
         = convertToSshUrl ("git@github.com:" +:+ path)).
Proof.
  split.
  - intros r. rewrite convertToSshUrl_unfold.
    destruct (JS.startsWith r "https://github.com/") eqn:Hs; [reflexivity | exact Hs].
  - intros path. rewrite !convertToSshUrl_unfold.
    rewrite (startsWith_app "https://github.com/" path). reflexivity.
Qed.

(** X3.  Two references with the web prefix that are converted to the same
    URL are the same reference. *)
Theorem convertToSshUrl_injective_on_web (a b : string) :
  JS.startsWith a "https://github.com/" = true ->
  JS.startsWith b "https://github.com/" = true ->
  convertToSshUrl a = convertToSshUrl b ->
  a = b.
Proof.
  intros Ha Hb. apply startsWith_iff in Ha, Hb.
  destruct Ha as [pa ->], Hb as [pb ->].
  rewrite !convertToSshUrl_unfold, !startsWith_app.
  change (JS.slice 19 ("https://github.com/" +:+ pa)) with pa.
  change (JS.slice 19 ("https://github.com/" +:+ pb)) with pb.
  intros Heq. apply append_inv_head in Heq. subst pb. reflexivity.
Qed.

Lemma convertToSshUrl_injective_on_web_witness :
  JS.startsWith "https://github.com/acct/repo.git" "https://github.com/" = true
  /\ convertToSshUrl "https://github.com/acct/repo.git" = "git@github.com:acct/repo.git"
  /\ "https://github.com/acct/repo.git" = "https://github.com/acct/repo.git".
Proof.
  split; [reflexivity|]. split; [reflexivity|].
  apply (convertToSshUrl_injective_on_web
           "https://github.com/acct/repo.git" "https://github.com/acct/repo.git");
    reflexivity.
Defined.

(** ** More on the upload route (lines 173-284) *)

(** X4.  For a request whose body was parsed and whose fields are strings
    or absent, the upload route issues nothing but probes unless the source path was found to be a directory and its
    [package.json] was found; the answer 404 follows the single probe of a
    source path that is no directory, and the answer 400 follows either no
    command at all or the rejected probe of [package.json]. *)
Theorem upload_validates_before_acting :
  forall `{Node} (World : Type) (exec : forall c : Cmd, World -> Res (resp c) * World)
         (req : UploadBody) (w : World),
    let src := JS.str (up_sourceLocalPath req) in
    let pkg := path_join src "package.json" in
    let '(out, _, tr) := run exec (upload_vite_project req) w in
    match out with
    | Rejected _ => True
    | Fulfilled resp =>
        (if forallb is_stat tr then True
         else exists st pk post,
             tr = Ev (Fs (Stat src)) (Fulfilled st)
                  :: Ev (Fs (Stat pkg)) (Fulfilled pk) :: post
             /\ isDirectory st = true)
        /\ (if Nat.eqb (status resp) 404
            then exists r, tr = [Ev (Fs (Stat src)) r] /\ says_directory r = false
            else True)
        /\ (if Nat.eqb (status resp) 400
            then tr = []
                 \/ exists st e, tr = [Ev (Fs (Stat src)) (Fulfilled st);
                                       Ev (Fs (Stat pkg)) (Rejected e)]
            else True)
    end.
Proof.
  intros N World exec req w. cbv zeta.
  upload_run.
  all: split; [first [exact I | eexists _, _, _; split; [reflexivity|];
                                first [assumption | apply negb_false_iff; assumption]]|].
  all: split; first
    [ exact I
    | eexists; split; [reflexivity|]; first [reflexivity | apply negb_true_iff; assumption]
    | left; reflexivity
    | right; eexists _, _; reflexivity ].
Qed.

(** X5.  The commands the upload route issues, whatever happens: of the
    file-system calls only [stat], the copy of the template to
    [run-vite-project.sh] in the source path and [chmod 0o755] of that file
    (never [mkdir] or [rm]); no [execa]; every [git] command through the
    instance bound to the source path, never [pull] or [clone], and
    [addRemote], [removeRemote] and [push] only for [origin]. *)
Theorem upload_footprint :
  forall `{Node} (World : Type) (exec : forall c : Cmd, World -> Res (resp c) * World)
         (req : UploadBody) (w : World),
    let src := JS.str (up_sourceLocalPath req) in
    let script := path_join src "run-vite-project.sh" in
    Forall (fun ev => upload_may RUN_VITE_PROJECT_SCRIPT_TEMPLATE script src (ev_cmd ev))
      (trace_of exec (upload_vite_project req) w).
Proof.
  intros N World exec req w. cbv zeta.
  change (wp exec (upload_vite_project req) w
            (fun _ _ tr =>
               Forall (fun ev =>
                         upload_may RUN_VITE_PROJECT_SCRIPT_TEMPLATE
                           (path_join (JS.str (up_sourceLocalPath req)) "run-vite-project.sh")
                           (JS.str (up_sourceLocalPath req)) (ev_cmd ev)) tr)).
  unfold upload_vite_project, upload_try, ensureRunScript, reconcileRemote,
    reconcileBranch, pushBranch.
  wp_run.
  all: repeat (apply Forall_cons_2; [cbn; auto|]); apply Forall_nil_2.
Qed.

(** X6.  In every run of the upload route the commands come in the order of
    the steps: probes, helper script, remote, checkout, staging, commit,
    current-branch query, push.  No command of an earlier step is issued
    after a command of a later one. *)
Theorem upload_steps_in_order :
  forall `{Node} (World : Type) (exec : forall c : Cmd, World -> Res (resp c) * World)
         (req : UploadBody) (w : World),
    nondecreasing
      (map (fun ev => stage_of (ev_cmd ev)) (trace_of exec (upload_vite_project req) w))
    = true.
Proof.
  intros N World exec req w.
  change (wp exec (upload_vite_project req) w
            (fun _ _ tr => nondecreasing (map (fun ev => stage_of (ev_cmd ev)) tr) = true)).
  unfold upload_vite_project, upload_try, ensureRunScript, reconcileRemote,
    reconcileBranch, pushBranch.
  wp_run.
  all: reflexivity.
Qed.

(** X7.  When the upload route answers 200, the last command was a
    fulfilled push, the call to [git commit] was fulfilled, and the answer
    carries the commit identifier that call returned (be it empty) and the
    web address of the branch. *)
Theorem upload_success_reports_commit :
  forall `{Node} (World : Type) (exec : forall c : Cmd, World -> Res (resp c) * World)
         (req : UploadBody) (w : World) (resp : Response),
    result_of exec (upload_vite_project req) w = Fulfilled resp ->
    status resp = 200 ->
    let tr := trace_of exec (upload_vite_project req) w in
    let repo := JS.str (up_repoName req) in
    let b := JS.or_default (up_branchName req) "main" in
    (exists ev, last tr = Some ev /\ is_push ev = true /\ rejected ev = false)
    /\ exists cid,
        committed tr = Some cid
        /\ body_message resp =
             "Successfully uploaded Vite project from " +:+ dq
             +:+ path_basename (JS.str (up_sourceLocalPath req)) +:+ dq +:+ " to " +:+ dq
             +:+ repo +:+ "/" +:+ b +:+ dq +:+ ". Commit: " +:+ cid
        /\ body_repoUrl resp =
             Some ("https://github.com/" +:+ JS.str YOUR_GITHUB_USERNAME +:+ "/" +:+ repo
                   +:+ "/tree/" +:+ b).
Proof.
  intros N World exec req w resp. cbv zeta.
  change (wp exec (upload_vite_project req) w
            (fun out _ tr =>
               out = Fulfilled resp -> status resp = 200 ->
               (exists ev, last tr = Some ev /\ is_push ev = true /\ rejected ev = false)
               /\ exists cid,
                   committed tr = Some cid
                   /\ body_message resp =
                        "Successfully uploaded Vite project from " +:+ dq
                        +:+ path_basename (JS.str (up_sourceLocalPath req)) +:+ dq
                        +:+ " to " +:+ dq +:+ JS.str (up_repoName req) +:+ "/"
                        +:+ JS.or_default (up_branchName req) "main" +:+ dq
                        +:+ ". Commit: " +:+ cid
                   /\ body_repoUrl resp =
                        Some ("https://github.com/" +:+ JS.str YOUR_GITHUB_USERNAME +:+ "/"
                              +:+ JS.str (up_repoName req) +:+ "/tree/"
                              +:+ JS.or_default (up_branchName req) "main"))).
  unfold upload_vite_project, upload_try, ensureRunScript, reconcileRemote,
    reconcileBranch, pushBranch.
  wp_run.
  all: intros Hout Hstatus; injection Hout as <-; cbn in Hstatus; try discriminate Hstatus.
  all: split; [eexists; split; [reflexivity|]; split; reflexivity|].
  all: eexists; split; [reflexivity|]; split; reflexivity.
Qed.

(** X8.  When the upload route answers 500 after having issued a command,
    the last command it issued was rejected and the answer carries that
    command's message: after a rejection the route issues nothing more. *)
Theorem upload_failure_reports_last_command :
  forall `{Node} (World : Type) (exec : forall c : Cmd, World -> Res (resp c) * World)
         (req : UploadBody) (w : World) (resp : Response),
    result_of exec (upload_vite_project req) w = Fulfilled resp ->
    status resp = 500 ->
    trace_of exec (upload_vite_project req) w <> [] ->
    exists ev e,
      last (trace_of exec (upload_vite_project req) w) = Some ev
      /\ ev_error ev = Some e
      /\ body_message resp = "Failed to upload Vite project: " +:+ message e.
Proof.
  intros N World exec req w resp.
  change (wp exec (upload_vite_project req) w
            (fun out _ tr =>
               out = Fulfilled resp -> status resp = 500 -> tr <> [] ->
               exists ev e,
                 last tr = Some ev /\ ev_error ev = Some e
                 /\ body_message resp = "Failed to upload Vite project: " +:+ message e)).
  unfold upload_vite_project, upload_try, ensureRunScript, reconcileRemote,
    reconcileBranch, pushBranch.
  wp_run.
  all: intros Hout Hstatus Htr; injection Hout as <-; cbn in Hstatus;
    try discriminate Hstatus; try (exfalso; apply Htr; reflexivity).
  all: eexists _, _; split; [reflexivity|]; split; reflexivity.
Qed.

(** ** More on the download route (lines 288-375) *)

Ltac download_wp :=
  unfold download_and_prepare, download_try, download_catch, updateExisting;
  wp_run.


(** X10.  When the download route answers 200, [npm install] was fulfilled,
    the last command set [run-vite-project.sh] in the target to mode 0o755
    and was fulfilled, and the answer carries the target path. *)
Theorem download_success_is_prepared :
  forall `{Node} (World : Type) (exec : forall c : Cmd, World -> Res (resp c) * World)
         (req : DownloadBody) (w : World) (resp : Response),
    result_of exec (download_and_prepare req) w = Fulfilled resp ->
    status resp = 200 ->
    let target := JS.str (dl_localDownloadPath req) in
    let tr := trace_of exec (download_and_prepare req) w in
    body_path resp = Some target
    /\ last tr = Some (Ev (Fs (Chmod (path_join target "run-vite-project.sh") 493%N))
                          (Fulfilled tt))
    /\ existsb (fun ev => is_execa ev && negb (rejected ev)) tr = true.
Proof.
  intros N World exec req w resp. cbv zeta.
  change (wp exec (download_and_prepare req) w
            (fun out _ tr =>
               out = Fulfilled resp -> status resp = 200 ->
               body_path resp = Some (JS.str (dl_localDownloadPath req))
               /\ last tr =
                    Some (Ev (Fs (Chmod (path_join (JS.str (dl_localDownloadPath req))
                                           "run-vite-project.sh") 493%N)) (Fulfilled tt))
               /\ existsb (fun ev => is_execa ev && negb (rejected ev)) tr = true)).
  download_wp.
  all: intros Hout Hstatus; injection Hout as <-; cbn in Hstatus; try discriminate Hstatus.
  all: split; [reflexivity|]; split; reflexivity.
Qed.


(** X12.  Whatever happens, the download route removes nothing but the
    target path (recursively and forced), creates no directory but the
    target's parent, runs no program but [npm install] in the target, clones
    only the canonical URL into the target, writes no file but
    [run-vite-project.sh] in the target, and in the existing directory only
    lists the remotes, removes and re-registers [origin] with the canonical
    URL, and pulls the requested branch from [origin]. *)
Theorem download_footprint :
  forall `{Node} (World : Type) (exec : forall c : Cmd, World -> Res (resp c) * World)
         (req : DownloadBody) (w : World),
    let target := JS.str (dl_localDownloadPath req) in
    let b := JS.or_default (dl_branchName req) "main" in
    let url := convertToSshUrl (JS.str (dl_githubRepoUrl req)) in
    Forall (fun ev =>
              download_may RUN_VITE_PROJECT_SCRIPT_TEMPLATE (path_dirname target)
                (path_join target "run-vite-project.sh") target url b (ev_cmd ev))
      (trace_of exec (download_and_prepare req) w).
Proof.
  intros N World exec req w. cbv zeta.
  change (wp exec (download_and_prepare req) w
            (fun _ _ tr =>
               Forall (fun ev =>
                         download_may RUN_VITE_PROJECT_SCRIPT_TEMPLATE
                           (path_dirname (JS.str (dl_localDownloadPath req)))
                           (path_join (JS.str (dl_localDownloadPath req))
                              "run-vite-project.sh")
                           (JS.str (dl_localDownloadPath req))
                           (convertToSshUrl (JS.str (dl_githubRepoUrl req)))
                           (JS.or_default (dl_branchName req) "main") (ev_cmd ev)) tr)).
  download_wp.
  all: repeat (apply Forall_cons_2; [cbn; auto|]); apply Forall_nil_2.
Qed.

(** X13.  The download route retries nothing: in every run there is at most
    one pull, at most one clone, at most one [npm install], and at most two
    removals of the target (one after a failed update, one in the final
    cleanup). *)
Theorem download_no_retries :
  forall `{Node} (World : Type) (exec : forall c : Cmd, World -> Res (resp c) * World)
         (req : DownloadBody) (w : World),
    let tr := trace_of exec (download_and_prepare req) w in
    length (List.filter is_pull tr) <= 1
    /\ length (List.filter is_clone tr) <= 1
    /\ length (List.filter is_execa tr) <= 1
    /\ length (List.filter is_rm tr) <= 2.
Proof.
  intros N World exec req w. cbv zeta.
  change (wp exec (download_and_prepare req) w
            (fun _ _ tr =>
               length (List.filter is_pull tr) <= 1
               /\ length (List.filter is_clone tr) <= 1
               /\ length (List.filter is_execa tr) <= 1
               /\ length (List.filter is_rm tr) <= 2)).
  download_wp.
  all: cbn; repeat split; lia.
Qed.

(** X14.  A fulfilled pull is followed by a second probe of the target.  If
    the target is still a directory the clone is skipped and [npm install]
    comes next; otherwise the route clones into the target. *)
Theorem download_after_fulfilled_pull :
  forall `{Node} (World : Type) (exec : forall c : Cmd, World -> Res (resp c) * World)
         (req : DownloadBody) (w : World),
    let target := JS.str (dl_localDownloadPath req) in
    let b := JS.or_default (dl_branchName req) "main" in
    let url := convertToSshUrl (JS.str (dl_githubRepoUrl req)) in
    let '(out, _, tr) := run exec (download_and_prepare req) w in
    match after_first pull_fulfilled tr with
    | Some (_, post) =>
        exists r rest,
          post = Ev (Fs (Stat target)) r :: rest
          /\ if says_directory r
             then exists r' rest', rest = Ev (Execa "npm" ["install"] target) r' :: rest'
             else exists r' rest',
                 rest = Ev (Git None (GitClone url target ["--branch"; b])) r' :: rest'
    | None => True
    end.
Proof.
  intros N World exec req w. cbv zeta.
  download_run.
  all: first
    [ exact I
    | eexists _, _; split; [reflexivity|]; cbn;
      try match goal with
          | H : negb (isDirectory ?a) = _ |- context [isDirectory ?a] =>
              let E := fresh in
              destruct (isDirectory a) eqn:E; cbn in H; try discriminate H
          end;
      eexists _, _; reflexivity ].
Qed.

(** ** The scaffold route (lines 126-169) *)

Ltac scaffold_wp := unfold scaffold_vite, scaffold_try; wp_run.

(** X15.  The scaffold route never scaffolds over an existing directory:
    when the probe of the project path finds a directory, the answer is 409
    and nothing was issued but the creation of the base directory and the
    probe.  When the probe finds no directory (also when it finds a regular
    file) the next command is [npm create vite@latest] with the project name
    and the template, run in the base directory. *)
Theorem scaffold_refuses_existing_directory :
  forall `{Node} (World : Type) (exec : forall c : Cmd, World -> Res (resp c) * World)
         (req : ScaffoldBody) (w : World),
    let projectName := JS.str (sc_projectName req) in
    let projectPath := path_join VITE_SCAFFOLDS_BASE_DIR projectName in
    let '(out, _, tr) := run exec (scaffold_vite req) w in
    match tr with
    | e1 :: e2 :: post =>
        e1 = Ev (Fs (Mkdir VITE_SCAFFOLDS_BASE_DIR true)) (Fulfilled tt)
        /\ ev_cmd e2 = Fs (Stat projectPath)
        /\ if probe_says_directory e2 then
             post = []
             /\ out = Fulfilled (mkScaffoldResponse 409
                        ("Project directory '" +:+ projectName
                         +:+ "' already exists. Please choose a different name or delete it first.")
                        None None)
           else
             exists r rest,
               post = Ev (Execa "npm"
                            ["create"; "vite@latest"; projectName; "--"; "--template";
                             sc_template req]
                            VITE_SCAFFOLDS_BASE_DIR) r :: rest
    | _ => True
    end.
Proof.
  intros N World exec req w. cbv zeta.
  apply (wp_run _). scaffold_wp. all: cbn.
  all: try exact I.
  all: repeat match goal with H : isDirectory _ = _ |- _ => rewrite H end.
  all: split; [reflexivity|]; split; [reflexivity|];
    first [ split; reflexivity | eexists _, _; reflexivity ].
Qed.

(** X16.  The scaffold route never removes anything, also when it fails
    after the project was generated.  The answer 200 comes exactly after
    these five commands: the base directory created, a probe of the project
    path that did not find a directory (fulfilled or rejected), the
    generator, the copy of the helper script and the mode 0o755, the last
    three fulfilled; it carries the project path and the generator's output.
    The answer 500 carries the message of the last command, which was
    rejected. *)
Theorem scaffold_outcomes :
  forall `{Node} (World : Type) (exec : forall c : Cmd, World -> Res (resp c) * World)
         (req : ScaffoldBody) (w : World),
    let projectName := JS.str (sc_projectName req) in
    let projectPath := path_join VITE_SCAFFOLDS_BASE_DIR projectName in
    let script := path_join projectPath "run-vite-project.sh" in
    let '(out, _, tr) := run exec (scaffold_vite req) w in
    forallb (fun ev => negb (is_rm ev)) tr = true
    /\ match out with
       | Rejected _ => True
       | Fulfilled resp =>
           if Nat.eqb (sr_status resp) 200 then
             exists r created,
               tr = [Ev (Fs (Mkdir VITE_SCAFFOLDS_BASE_DIR true)) (Fulfilled tt);
                     Ev (Fs (Stat projectPath)) r;
                     Ev (Execa "npm"
                           ["create"; "vite@latest"; projectName; "--"; "--template";
                            sc_template req]
                           VITE_SCAFFOLDS_BASE_DIR) (Fulfilled created);
                     Ev (Fs (CopyFile RUN_VITE_PROJECT_SCRIPT_TEMPLATE script)) (Fulfilled tt);
                     Ev (Fs (Chmod script 493%N)) (Fulfilled tt)]
               /\ says_directory r = false
               /\ sr_path resp = Some projectPath
               /\ sr_stdout resp = Some (stdout created)
           else if Nat.eqb (sr_status resp) 500 then
             exists ev e,
               last tr = Some ev
               /\ ev_error ev = Some e
               /\ sr_message resp = "Failed to scaffold Vite project: " +:+ message e
           else tr = [] \/ length tr = 2
       end.
Proof.
  intros N World exec req w. cbv zeta.
  apply (wp_run _). scaffold_wp. all: cbn.
  all: split; [reflexivity|].
  all: first
    [ left; reflexivity
    | right; reflexivity
    | eexists _, _; split; [reflexivity|]; split; [|split; reflexivity];
      first [reflexivity | assumption]
    | eexists _, _; split; [reflexivity|]; split; reflexivity ].
Qed.

(** ** Remote reconciliation in any world (lines 214-236) *)

(** X17.  In any world, [reconcileRemote] starts with the repository probe.
    A probe that is rejected counts as "not a repository", like one that
    answers [false]: [git init] follows and, if fulfilled, the registration
    of [origin].  After a probe answering [true] the remotes are listed;
    [origin] is registered when the listing has none, removed and then
    registered when its fetch URL differs from the desired one, and nothing
    more happens otherwise.  A rejected listing, initialisation, removal or
    registration ends the block with that rejection. *)
Theorem reconcileRemote_commands :
  forall (World : Type) (exec : forall c : Cmd, World -> Res (resp c) * World)
         (git : option string) (url : string) (w : World),
    let init := Git git GitInit in
    let list := Git git (GitGetRemotes true) in
    let add := Git git (GitAddRemote "origin" url) in
    let remove := Git git (GitRemoveRemote "origin") in
    let '(out, _, tr) := run exec (reconcileRemote git url) w in
    exists (probe : Res bool) post,
      tr = Ev (Git git GitCheckIsRepo) probe :: post
      /\ match probe with
         | Fulfilled true =>
             exists listed rest,
               post = Ev list listed :: rest
               /\ match listed with
                  | Rejected e => rest = [] /\ out = Rejected e
                  | Fulfilled remotes =>
                      if negb (existsb is_origin remotes) then
                        exists r, rest = [Ev add r] /\ out = r
                      else if origin_differs remotes url then
                        (exists e, rest = [Ev remove (Rejected e)] /\ out = Rejected e)
                        \/ (exists r, rest = [Ev remove (Fulfilled tt); Ev add r] /\ out = r)
                      else rest = [] /\ out = Fulfilled tt
                  end
         | _ =>
             (exists e, post = [Ev init (Rejected e)] /\ out = Rejected e)
             \/ (exists r, post = [Ev init (Fulfilled tt); Ev add r] /\ out = r)
         end.
Proof.
  intros World exec git url w. cbv zeta.
  apply (wp_run _). unfold reconcileRemote. wp_run. all: cbn.
  all: eexists _, _; split; [reflexivity|]; cbn.
  all: try match goal with
           | H : negb (id ?a) = _ |- _ => destruct a; cbn in H; try discriminate H
           end.
  all: try (first [ left; eexists; split; reflexivity
                  | right; eexists (Fulfilled tt); split; reflexivity
                  | right; eexists (Rejected _); split; reflexivity ]).
  all: eexists _, _; split; [reflexivity|]; cbn.
  all: try (split; reflexivity).
  all: unfold origin_differs;
    repeat match goal with
           | H : negb (existsb _ _) = _ |- _ => rewrite H
           | H : find _ _ = _ |- _ => rewrite H
           | H : negb (String.eqb _ _) = _ |- _ => rewrite H
           end.
  all: first
    [ split; reflexivity
    | eexists (Fulfilled tt); split; reflexivity
    | eexists (Rejected _); split; reflexivity
    | left; eexists; split; reflexivity
    | right; eexists (Fulfilled tt); split; reflexivity
    | right; eexists (Rejected _); split; reflexivity ].
Qed.

(** ** The two routes on one remote table *)

(** X18.  In the remote-table model, on a work tree that has an [origin] and
    whose pull is fulfilled, the update attempt of the download route leaves
    the same remote table as the remote reconciliation of the upload route:
    the table as it was when [origin] already fetched from the URL, and the
    table with [origin] set to the URL otherwise. *)
Theorem download_repoint_agrees_with_reconcileRemote
  (other : forall c : Cmd, Res (resp c)) (target url b : string)
  (m : gmap string RemoteRefs) (r : RemoteRefs) :
  m !! "origin" = Some r ->
  other (Git (Some target) (GitPull "origin" b)) = Fulfilled tt ->
  let after_download :=
    world_of (RemoteModel.exec other) (updateExisting target url b) (Some m) in
  let after_upload :=
    world_of (RemoteModel.exec other) (reconcileRemote (Some target) url) (Some m) in
  after_download = after_upload
  /\ after_upload =
       Some (if String.eqb (fetch r) url then m else <["origin" := mkRefs url url]> m).
Proof.
  intros Hm Hpull. cbv zeta.
  unfold world_of, updateExisting, reconcileRemote, await_then_catch, await.
  model_simpl.
  rewrite existsb_filter, !find_filter, filter_origin_listing, Hm. model_simpl.
  destruct (String.eqb (fetch r) url) eqn:Hr; model_simpl.
  - rewrite Hpull. split; reflexivity.
  - rewrite Hm. model_simpl. rewrite lookup_delete_eq. model_simpl.
    rewrite Hpull. model_simpl. rewrite insert_delete_eq. split; reflexivity.
Qed.

Lemma download_repoint_agrees_with_reconcileRemote_witness :
  let web := mkRefs "https://github.com/acct/repo.git" "https://github.com/acct/repo.git" in
  let m : gmap string RemoteRefs := {[ "origin" := web ]} in
  let other := fulfilled Scenario.on_main in
  m !! "origin" = Some web
  /\ world_of (RemoteModel.exec other)
       (updateExisting Scenario.target Scenario.ssh "main") (Some m)
     = world_of (RemoteModel.exec other)
         (reconcileRemote (Some Scenario.target) Scenario.ssh) (Some m).
Proof.
  cbv zeta. split; [reflexivity|].
  apply (download_repoint_agrees_with_reconcileRemote
           (fulfilled Scenario.on_main) Scenario.target Scenario.ssh "main"
           {[ "origin" := mkRefs "https://github.com/acct/repo.git"
                                 "https://github.com/acct/repo.git" ]}
           (mkRefs "https://github.com/acct/repo.git" "https://github.com/acct/repo.git"));
    reflexivity.
Defined.

(** ** The GitHub REST routes (lines 50-122) *)

Lemma or_default_nonempty (v : JS.value) (d : string) :
  d <> "" -> JS.or_default v d <> "".
Proof.
  intros Hd. destruct v as [s|]; simpl; [|exact Hd].
  destruct (String.eqb s "") eqn:Hs; [exact Hd|].
  apply String.eqb_neq. exact Hs.
Qed.

Lemma or_default_truthy (s d : string) : s <> "" -> JS.or_default (Some s) d = s.
Proof. intros Hs. simpl. apply String.eqb_neq in Hs. rewrite Hs. reflexivity. Qed.

(** X19.  Neither REST route contacts GitHub unless its required field
    (the user name, the repository name) and the server's token are present:
    then it sends exactly one request, authorised with [token <PAT>], a GET
    of the user's repositories or a POST to [/user/repos] whose [auto_init]
    is [true]; otherwise it sends none. *)
Theorem github_routes_requests :
  forall `{Node} (Data : Type) (axios : GitHub.Request -> Data + GitHub.AxiosError)
         (username name description : JS.value),
    let token := JS.str env_GITHUB_PAT in
    let headers := GitHub.mkHeaders ("token " +:+ token) "application/vnd.github.v3+json" in
    (GitHub.repos Data axios username).2 =
      (if JS.falsy username || JS.falsy env_GITHUB_PAT then []
       else [GitHub.GET ("https://api.github.com/users/" +:+ JS.str username +:+ "/repos")
               headers])
    /\ (GitHub.create_repo Data axios name description).2 =
         (if JS.falsy name || JS.falsy env_GITHUB_PAT then []
          else [GitHub.POST "https://api.github.com/user/repos"
                  (GitHub.mkRepoDetails (JS.str name) description true) headers]).
Proof.
  intros N Data axios username name description. cbv zeta.
  unfold GitHub.repos, GitHub.create_repo, GitHub.getReposFromGitHub,
    GitHub.createRepoOnGitHub, GitHub.api_headers.
  split.
  - destruct (JS.falsy username); [reflexivity|].
    destruct (JS.falsy env_GITHUB_PAT); [reflexivity|]. cbn.
    destruct (axios _); reflexivity.
  - destruct (JS.falsy name); [reflexivity|].
    destruct (JS.falsy env_GITHUB_PAT); [reflexivity|]. cbn.
    destruct (axios _); reflexivity.
Qed.

(** X20.  A REST route relays GitHub's data with status 200 (repositories)
    or 201 (new repository).  Otherwise it answers 400 or 500 with a message
    that is never empty.  When the call to GitHub is rejected the status is
    500 whatever GitHub's own status was, and the message is GitHub's
    [response.data.message] when that is a non-empty string, and otherwise
    the fixed text of the route: "Failed to fetch repositories from GitHub."
    or "Failed to create repository on GitHub.". *)
Theorem github_routes_error_replies :
  forall `{Node} (Data : Type) (axios : GitHub.Request -> Data + GitHub.AxiosError)
         (username name description : JS.value),
    let ok (success : nat) (fallback : string) (reply : GitHub.Reply Data)
           (sent : list GitHub.Request) :=
      match GitHub.rp_body Data reply with
      | inl data =>
          GitHub.rp_status Data reply = success
          /\ exists request, sent = [request] /\ axios request = inl data
      | inr m =>
          m <> ""
          /\ (GitHub.rp_status Data reply = 400 \/ GitHub.rp_status Data reply = 500)
          /\ match sent with
             | [] => True
             | request :: _ =>
                 GitHub.rp_status Data reply = 500
                 /\ exists error,
                     axios request = inr error
                     /\ m = match GitHub.response_data_message error with
                            | Some gm => if String.eqb gm "" then fallback else gm
                            | None => fallback
                            end
             end
      end in
    ok 200 "Failed to fetch repositories from GitHub."
       (GitHub.repos Data axios username).1 (GitHub.repos Data axios username).2
    /\ ok 201 "Failed to create repository on GitHub."
         (GitHub.create_repo Data axios name description).1
         (GitHub.create_repo Data axios name description).2.
Proof.
  intros N Data axios username name description. cbv zeta.
  unfold GitHub.repos, GitHub.create_repo, GitHub.getReposFromGitHub,
    GitHub.createRepoOnGitHub.
  split.
  - destruct (JS.falsy username); [cbn; split; [discriminate|]; split; [left; reflexivity|exact I]|].
    destruct (JS.falsy env_GITHUB_PAT);
      [cbn; split; [discriminate|]; split; [right; reflexivity|exact I]|].
    destruct (axios _) as [data|error] eqn:Hax; cbn.
    + split; [reflexivity|]. eexists. split; [reflexivity | exact Hax].
    + split; [apply or_default_nonempty; discriminate|].
      split; [right; reflexivity|]. split; [reflexivity|].
      exists error. split; [exact Hax | reflexivity].
  - destruct (JS.falsy name); [cbn; split; [discriminate|]; split; [left; reflexivity|exact I]|].
    destruct (JS.falsy env_GITHUB_PAT);
      [cbn; split; [discriminate|]; split; [right; reflexivity|exact I]|].
    destruct (axios _) as [data|error] eqn:Hax; cbn.
    + split; [reflexivity|]. eexists. split; [reflexivity | exact Hax].
    + split; [apply or_default_nonempty; discriminate|].
      split; [right; reflexivity|]. split; [reflexivity|].
      exists error. split; [exact Hax | reflexivity].
Qed.

(** ** The helper script in both routes *)

(** X21.  The upload route leaves an existing helper script alone: when the
    probe for [run-vite-project.sh] in the source path is fulfilled, every
    later command is a [git] command; the script is neither copied over nor
    has its mode changed. *)
Theorem upload_keeps_existing_run_script :
  forall `{Node} (World : Type) (exec : forall c : Cmd, World -> Res (resp c) * World)
         (req : UploadBody) (w : World),
    let src := JS.str (up_sourceLocalPath req) in
    let '(out, _, tr) := run exec (upload_vite_project req) w in
    match tr with
    | _ :: _ :: probe :: post =>
        ev_cmd probe = Fs (Stat (path_join src "run-vite-project.sh"))
        /\ if rejected probe then True else forallb is_git post = true
    | _ => True
    end.
Proof.
  intros N World exec req w. cbv zeta.
  upload_run.
  all: first [ exact I | split; [reflexivity|]; first [exact I | reflexivity] ].
Qed.

(** X22.  In the download route a fulfilled [npm install] is followed by the
    probe for [run-vite-project.sh] in the target.  The script is copied from
    the template only when that probe is rejected; its mode is set to 0o755
    in both cases, as the last command of the route, unless the copy is
    rejected. *)
Theorem download_installs_run_script :
  forall `{Node} (World : Type) (exec : forall c : Cmd, World -> Res (resp c) * World)
         (req : DownloadBody) (w : World),
    let target := JS.str (dl_localDownloadPath req) in
    let script := path_join target "run-vite-project.sh" in
    let copy := Fs (CopyFile RUN_VITE_PROJECT_SCRIPT_TEMPLATE script) in
    let chmod := Fs (Chmod script 493%N) in
    let '(out, _, tr) := run exec (download_and_prepare req) w in
    match after_first (fun ev => is_execa ev && negb (rejected ev)) tr with
    | Some (_, post) =>
        exists probe rest,
          post = Ev (Fs (Stat script)) probe :: rest
          /\ match probe with
             | Fulfilled _ => exists r cleanup, rest = Ev chmod r :: cleanup
             | Rejected _ =>
                 exists copied rest',
                   rest = Ev copy copied :: rest'
                   /\ match copied with
                      | Fulfilled _ => exists r cleanup, rest' = Ev chmod r :: cleanup
                      | Rejected _ => forallb (fun ev => negb (is_git ev)) rest' = true
                      end
             end
    | None => True
    end.
Proof.
  intros N World exec req w. cbv zeta.
  download_run.
  all: first
    [ exact I
    | eexists (Fulfilled _), _; split; [reflexivity|]; eexists _, _; reflexivity
    | eexists (Rejected _), _; split; [reflexivity|];
      first [ eexists (Fulfilled tt), _; split; [reflexivity|]; eexists _, _; reflexivity
            | eexists (Rejected _), _; split; reflexivity ] ].
Qed.

(** ** Witnesses *)

Lemma upload_success_reports_commit_witness :
  let exec := Scripted.exec (fulfilled Scenario.on_main) in
  let upload := @upload_vite_project Example_process.node Scenario.upload_main in
  let resp :=
    mkResponse 200
      ("Successfully uploaded Vite project from " +:+ dq +:+ "app" +:+ dq +:+ " to "
       +:+ dq +:+ "demo/main" +:+ dq +:+ ". Commit: 1a2b3c4")
      (Some "https://github.com/quartz/demo/tree/main") None in
  result_of exec upload [] = Fulfilled resp
  /\ status resp = 200
  /\ exists ev, last (trace_of exec upload []) = Some ev
                /\ is_push ev = true /\ rejected ev = false.
Proof.
  cbv zeta. split; [vm_compute; reflexivity|]. split; [reflexivity|].
  refine (proj1 (upload_success_reports_commit (H := Example_process.node)
                   Scripted.World (Scripted.exec (fulfilled Scenario.on_main))
                   Scenario.upload_main [] _ _ _)).
  - vm_compute. reflexivity.
  - reflexivity.
Defined.

Lemma upload_failure_reports_last_command_witness :
  let exec := Scripted.exec (fulfilled Scenario.on_main) in
  let upload := @upload_vite_project Example_process.node Scenario.upload_main in
  let resp :=
    mkResponse 500 "Failed to upload Vite project: nothing to commit, working tree clean"
      None None in
  result_of exec upload Scenario.nothing_to_commit = Fulfilled resp
  /\ status resp = 500
  /\ exists ev e,
      last (trace_of exec upload Scenario.nothing_to_commit) = Some ev
      /\ ev_error ev = Some e
      /\ body_message resp = "Failed to upload Vite project: " +:+ message e.
Proof.
  cbv zeta. split; [vm_compute; reflexivity|]. split; [reflexivity|].
  apply (upload_failure_reports_last_command (H := Example_process.node)
           Scripted.World (Scripted.exec (fulfilled Scenario.on_main))
           Scenario.upload_main Scenario.nothing_to_commit).
  - vm_compute. reflexivity.
  - reflexivity.
  - vm_compute. discriminate.
Defined.

Lemma download_success_is_prepared_witness :
  let exec := Scripted.exec (fulfilled Scenario.on_main) in
  let download := @download_and_prepare Example_process.node Scenario.download_repo in
  let resp :=
    mkResponse 200 "Project cloned and prepared successfully!" None
      (Some Scenario.target) in
  result_of exec download [] = Fulfilled resp
  /\ status resp = 200
  /\ last (trace_of exec download [])
     = Some (Ev (Fs (Chmod "/home/u/cloned/repo/run-vite-project.sh" 493%N)) (Fulfilled tt)).
Proof.
  cbv zeta. split; [vm_compute; reflexivity|]. split; [reflexivity|].
  refine (proj1 (proj2 (download_success_is_prepared (H := Example_process.node)
                          Scripted.World (Scripted.exec (fulfilled Scenario.on_main))
                          Scenario.download_repo [] _ _ _))).
  - vm_compute. reflexivity.
  - reflexivity.
Defined.
